(** * medicine_scraper.py: a shallow embedding and its verified properties

    The program scrapes product pages: it fetches a page, queries the parsed
    document with ordered lists of CSS selectors, cleans the matched text with
    regular expressions, and assembles one record per URL.

    Python strings are sequences of Unicode code points, and the program
    relies on that ([len], character classes, the rupee sign U+20B9), so a
    string is a [list N] of code points here.  Literals are written as UTF-8
    text and decoded by [u]. *)

From Stdlib Require Import Ascii String.
From Stdlib Require Import List NArith ZArith Bool Lia.
Import ListNotations.

Set Implicit Arguments.

(** ** Python strings *)

Definition char := N.
Definition pystr := list char.

(** UTF-8 decoding of a literal of this file into code points. *)
Fixpoint utf8 (bs : list N) : pystr :=
  match bs with
  | [] => []
  | b0 :: t0 =>
      if (b0 <? 128)%N then b0 :: utf8 t0
      else
        match t0 with
        | [] => []
        | b1 :: t1 =>
            if (b0 <? 224)%N
            then ((b0 - 192) * 64 + (b1 - 128))%N :: utf8 t1
            else
              match t1 with
              | [] => []
              | b2 :: t2 =>
                  if (b0 <? 240)%N
                  then ((b0 - 224) * 4096 + (b1 - 128) * 64 + (b2 - 128))%N
                         :: utf8 t2
                  else
                    match t2 with
                    | [] => []
                    | b3 :: t3 =>
                        ((b0 - 240) * 262144 + (b1 - 128) * 4096
                         + (b2 - 128) * 64 + (b3 - 128))%N :: utf8 t3
                    end
              end
        end
  end.

Definition u (s : String.string) : pystr :=
  utf8 (map N_of_ascii (String.list_ascii_of_string s)).
Arguments u s%_string.

Definition ch (a : ascii) : char := N_of_ascii a.
Arguments ch a%_char.

(** The rupee sign, U+20B9. *)
Definition rupee : char := 8377%N.

(** [a == b] on strings. *)
Fixpoint str_eqb (a b : pystr) : bool :=
  match a, b with
  | [], [] => true
  | x :: a', y :: b' => (x =? y)%N && str_eqb a' b'
  | _, _ => false
  end.

(** [s.startswith(p)] *)
Fixpoint startswith (p s : pystr) : bool :=
  match p, s with
  | [], _ => true
  | x :: p', y :: s' => (x =? y)%N && startswith p' s'
  | _ :: _, [] => false
  end.

(** [p in s] *)
Fixpoint contains (p s : pystr) : bool :=
  startswith p s ||
  match s with
  | [] => false
  | _ :: s' => contains p s'
  end.

(** [s.endswith(p)] *)
Definition endswith (p s : pystr) : bool :=
  (length p <=? length s) && str_eqb (skipn (length s - length p) s) p.

(** [s.split(sep)] for a one-character separator, as a non-empty list of
    pieces: the first piece and the others. *)
Fixpoint split_char (sep : char) (s : pystr) : pystr * list pystr :=
  match s with
  | [] => ([], [])
  | c :: s' =>
      let '(hd, tl) := split_char sep s' in
      if (c =? sep)%N then ([], hd :: tl) else (c :: hd, tl)
  end.

(** ** The Unicode tables behind [str] and [re]

    [str.split()], [str.lower()], [float()] and the classes [\s] and [\d] of
    [re], as well as [re.IGNORECASE], consult CPython's Unicode character
    database.  The database is not part of this program; it is an interface
    here, and every general theorem below holds for any table. *)
Class UnicodeDB := {
  (** [c.isspace()], which is also the class [\s] *)
  isspace : char -> bool;
  (** the decimal-digit value of [c], if it has one: the class [\d], and the
      digits [float()] accepts *)
  decimal : char -> option N;
  (** [ignorecase_eq p c]: under [re.IGNORECASE] the pattern character [p]
      matches the subject character [c] *)
  ignorecase_eq : char -> char -> bool;
  (** [s.lower()] *)
  str_lower : pystr -> pystr
}.

Definition isdigit `{UnicodeDB} (c : char) : bool :=
  match decimal c with Some _ => true | None => false end.

(** The table restricted to Basic Latin letters and digits, with the full
    list of white-space code points; the concrete examples below, whose
    inputs are ASCII text and the rupee sign, are evaluated with it. *)
Module BasicLatin.

Definition isspace (c : char) : bool :=
  ((9 <=? c) && (c <=? 13) || (28 <=? c) && (c <=? 32) || (c =? 133)
   || (c =? 160) || (c =? 5760) || (8192 <=? c) && (c <=? 8202)
   || (c =? 8232) || (c =? 8233) || (c =? 8239) || (c =? 8287)
   || (c =? 12288))%N.

Definition decimal (c : char) : option N :=
  if ((48 <=? c) && (c <=? 57))%N then Some (c - 48)%N else None.

Definition is_upper (c : char) : bool := ((65 <=? c) && (c <=? 90))%N.
Definition is_lower (c : char) : bool := ((97 <=? c) && (c <=? 122))%N.

Definition lower (c : char) : char := if is_upper c then (c + 32)%N else c.

Definition ignorecase_eq (p c : char) : bool :=
  if is_upper p || is_lower p then (lower p =? lower c)%N else (p =? c)%N.

Definition str_lower (s : pystr) : pystr := map lower s.

End BasicLatin.

#[export] Instance basic_latin : UnicodeDB := {
  isspace := BasicLatin.isspace;
  decimal := BasicLatin.decimal;
  ignorecase_eq := BasicLatin.ignorecase_eq;
  str_lower := BasicLatin.str_lower
}.

(** ** Exceptions and records *)

(** The two handlers of the program tell [requests.exceptions.RequestException]
    from every other [Exception]. *)
Inductive exn :=
| RequestException (msg : pystr)
| OtherException (msg : pystr).

(** [str(e)] *)
Definition exn_str (e : exn) : pystr :=
  match e with RequestException m | OtherException m => m end.

(** One row of the result: the dictionary [scrape_medicine] returns, with its
    ten keys. *)
Module PageRecord.
Record t := {
  name : pystr;
  mrp : pystr;
  discounted_price : pystr;
  price : pystr;
  quantity : pystr;
  image : pystr;
  manufacturer : pystr;
  composition : pystr;
  url : pystr;
  status : pystr
}.
End PageRecord.

(** ** The world outside

    [urllib.parse.urljoin] is a pure library function, which raises
    [ValueError] on some malformed URLs.  Sleeping, fetching, and writing the
    snapshot files act on the world: they are computations in a state and
    exception monad over a type [W] of worlds. *)

Class UrlLib := {
  urljoin : pystr -> pystr -> exn + pystr
}.

Definition M (W A : Type) : Type := W -> (exn + A) * W.

Definition ret {W A} (a : A) : M W A := fun w => (inr a, w).

Definition raise {W A} (e : exn) : M W A := fun w => (inl e, w).

Definition bind {W A B} (c : M W A) (k : A -> M W B) : M W B :=
  fun w =>
    match c w with
    | (inl e, w') => (inl e, w')
    | (inr a, w') => k a w'
    end.

(** [try: body  except ... as e: handler e] *)
Definition try_except {W A} (body : M W A) (handler : exn -> M W A) : M W A :=
  fun w =>
    match body w with
    | (inl e, w') => handler e w'
    | (inr a, w') => (inr a, w')
    end.

Definition lift {W A} (r : exn + A) : M W A := fun w => (r, w).

Notation "x <- c ;; k" := (bind c (fun x => k))
  (at level 61, c at next level, right associativity).
Notation "c ;;; k" := (bind c (fun _ => k))
  (at level 61, right associativity).

(** What [requests.get] returns: the body, and the message of the
    [HTTPError] that [raise_for_status] raises for it, if it raises one. *)
Record Response := {
  text : pystr;
  http_error : option pystr
}.

Section Program.

Context {U : UnicodeDB} {L : UrlLib}.

(** [s.split()]: the maximal runs of non-space characters. *)
Fixpoint split_ws_aux (cur : pystr) (s : pystr) : list pystr :=
  match s with
  | [] => match cur with [] => [] | _ => [rev cur] end
  | c :: s' =>
      if isspace c
      then match cur with
           | [] => split_ws_aux [] s'
           | _ => rev cur :: split_ws_aux [] s'
           end
      else split_ws_aux (c :: cur) s'
  end.

Definition split_ws (s : pystr) : list pystr := split_ws_aux [] s.

(** [sep.join(l)] *)
Fixpoint join (sep : pystr) (l : list pystr) : pystr :=
  match l with
  | [] => []
  | [x] => x
  | x :: l' => x ++ sep ++ join sep l'
  end.

(** [" ".join(s.split())] *)
Definition normalize_ws (s : pystr) : pystr := join (u " ") (split_ws s).

(** ** Regular expressions

    The patterns of the program use literals, [\d], [\s], [.], one character
    set, sequence, alternation, greedy and lazy stars, [+], [?], one capturing
    group and one negative lookahead.  The matcher is the backtracking
    matcher of [re]: alternatives are tried left to right, a greedy
    quantifier tries one more iteration before it tries to stop, a lazy one
    the other way round, and [search] takes the leftmost start. *)

Inductive regex :=
| Eps
| Lit (c : char)
| Digit
| Space
| AnyChar
| OneOf (cs : list char)
| Seq (r1 r2 : regex)
| Alt (r1 r2 : regex)
| Star (r : regex)
| LazyStar (r : regex)
| Opt (r : regex)
| Group (r : regex)
| NegLook (r : regex).

Definition Plus (r : regex) : regex := Seq r (Star r).

Definition Str (s : String.string) : regex :=
  fold_right (fun c r => Seq (Lit c) r) Eps (u s).
Arguments Str s%_string.

(** A pattern character against a subject character, with or without
    [re.IGNORECASE]. *)
Definition lit_match (ic : bool) (p c : char) : bool :=
  if ic then ignorecase_eq p c else (p =? c)%N.

Definition step_char {A} (ok : char -> bool) (s : pystr)
    (k : pystr -> option A) : option A :=
  match s with
  | c :: s' => if ok c then k s' else None
  | [] => None
  end.

(** [rmatch ic r s g k]: match [r] at the head of [s]; [g] is the text of
    group 1 so far; [k] is what remains to be matched, and gets the rest of
    the subject.  [None] means backtrack. *)
Fixpoint rmatch {A} (ic : bool) (r : regex) (s : pystr) (g : pystr)
    (k : pystr -> pystr -> option A) {struct r} : option A :=
  match r with
  | Eps => k s g
  | Lit p => step_char (lit_match ic p) s (fun s' => k s' g)
  | Digit => step_char isdigit s (fun s' => k s' g)
  | Space => step_char isspace s (fun s' => k s' g)
  | AnyChar => step_char (fun c => negb (c =? 10)%N) s (fun s' => k s' g)
  | OneOf cs =>
      step_char (fun c => existsb (fun p => lit_match ic p c) cs) s
        (fun s' => k s' g)
  | Seq r1 r2 => rmatch ic r1 s g (fun s' g' => rmatch ic r2 s' g' k)
  | Alt r1 r2 =>
      match rmatch ic r1 s g k with
      | Some a => Some a
      | None => rmatch ic r2 s g k
      end
  | Opt r1 =>
      match rmatch ic r1 s g k with
      | Some a => Some a
      | None => k s g
      end
  | Star r1 =>
      (fix loop (n : nat) (s : pystr) (g : pystr) : option A :=
         match n with
         | O => k s g
         | S n' =>
             match rmatch ic r1 s g
                     (fun s' g' =>
                        if (length s' <? length s)%nat then loop n' s' g'
                        else None) with
             | Some a => Some a
             | None => k s g
             end
         end) (length s) s g
  | LazyStar r1 =>
      (fix loop (n : nat) (s : pystr) (g : pystr) : option A :=
         match n with
         | O => k s g
         | S n' =>
             match k s g with
             | Some a => Some a
             | None =>
                 rmatch ic r1 s g
                   (fun s' g' =>
                      if (length s' <? length s)%nat then loop n' s' g'
                      else None)
             end
         end) (length s) s g
  | Group r1 =>
      rmatch ic r1 s g
        (fun s' _ => k s' (firstn (length s - length s') s))
  | NegLook r1 =>
      match rmatch ic r1 s g (fun _ _ => Some tt) with
      | Some _ => None
      | None => k s g
      end
  end.

(** A match object: the text of group 1 ([m.group(1)]), the subject from the
    start of the match and the subject after its end.  Every pattern below
    that is asked for its group has the group on every path. *)
Record MatchObj := {
  group1 : pystr;
  m_from : pystr;
  m_rest : pystr
}.

(** [re.search(r, s)], [ic] telling whether [re.IGNORECASE] is given. *)
Fixpoint re_search (ic : bool) (r : regex) (s : pystr) : option MatchObj :=
  match rmatch ic r s [] (fun s' g => Some (Build_MatchObj g s s')) with
  | Some m => Some m
  | None =>
      match s with
      | [] => None
      | _ :: s' => re_search ic r s'
      end
  end.

(** [re.findall(r, s)] for a pattern with one group: the group of every
    match, the search resuming where the previous match ended (one character
    further after an empty match). *)
Fixpoint findall_fuel (fuel : nat) (ic : bool) (r : regex) (s : pystr)
    : list pystr :=
  match fuel with
  | O => []
  | S fuel' =>
      match re_search ic r s with
      | None => []
      | Some m =>
          group1 m ::
          (if (length (m_rest m) <? length (m_from m))%nat
           then findall_fuel fuel' ic r (m_rest m)
           else match m_rest m with
                | [] => []
                | _ :: t => findall_fuel fuel' ic r t
                end)
      end
  end.

Definition re_findall (ic : bool) (r : regex) (s : pystr) : list pystr :=
  findall_fuel (S (length s)) ic r s.

(** ** [float(s)] and [f"{x:.2f}"]

    A non-negative binary64 value is [m * 2^e] or infinity.  [float] rounds
    the decimal numeral to the nearest such value, ties to even, and the
    format rounds the exact binary value to two decimals, ties to even. *)

Inductive pyfloat :=
| Finite (m : N) (e : Z)
| Infinity.

Definition digit_val (c : char) : N :=
  match decimal c with Some d => d | None => 0%N end.

Definition digits_to_N (s : pystr) : N :=
  fold_left (fun acc c => (acc * 10 + digit_val c)%N) s 0%N.

(** [num / den] rounded to the nearest integer, ties to even. *)
Definition div_rne (num den : N) : N :=
  let '(q, r) := N.div_eucl num den in
  match (2 * r ?= den)%N with
  | Lt => q
  | Gt => (q + 1)%N
  | Eq => if N.even q then q else (q + 1)%N
  end.

Definition pow2 (e : Z) : N := (2 ^ Z.to_N e)%N.

(** [2^l <= p / q] *)
Definition ge_pow2 (p q : N) (l : Z) : bool :=
  if (0 <=? l)%Z then (q * pow2 l <=? p)%N else (q <=? p * pow2 (- l))%N.

Definition float_of_ratio (p q : N) : pyfloat :=
  if (p =? 0)%N then Finite 0 0
  else
    let l := (Z.of_N (N.log2 p) - Z.of_N (N.log2 q))%Z in
    let fl := if ge_pow2 p q l then l else (l - 1)%Z in
    let e := Z.max (fl - 52) (-1074) in
    let m := if (0 <=? e)%Z then div_rne p (q * pow2 e)
             else div_rne (p * pow2 (- e)) q in
    if (0 <=? e)%Z && (pow2 1024 <=? m * pow2 e)%N then Infinity
    else Finite m e.

(** [float(s)] for a numeral [digits] or [digits.digits]; these are the only
    strings the program converts. *)
Definition py_float (s : pystr) : pyfloat :=
  match split_char (ch ".") s with
  | (ip, []) => float_of_ratio (digits_to_N ip) 1
  | (ip, fp :: _) =>
      float_of_ratio (digits_to_N (ip ++ fp)) (10 ^ N.of_nat (length fp))
  end.

Fixpoint uint_to_str (d : Decimal.uint) : pystr :=
  match d with
  | Decimal.Nil => []
  | Decimal.D0 d => 48%N :: uint_to_str d
  | Decimal.D1 d => 49%N :: uint_to_str d
  | Decimal.D2 d => 50%N :: uint_to_str d
  | Decimal.D3 d => 51%N :: uint_to_str d
  | Decimal.D4 d => 52%N :: uint_to_str d
  | Decimal.D5 d => 53%N :: uint_to_str d
  | Decimal.D6 d => 54%N :: uint_to_str d
  | Decimal.D7 d => 55%N :: uint_to_str d
  | Decimal.D8 d => 56%N :: uint_to_str d
  | Decimal.D9 d => 57%N :: uint_to_str d
  end.

(** [str(n)] *)
Definition N_to_str (n : N) : pystr := uint_to_str (N.to_uint n).

(** [f"{x:.2f}"] *)
Definition fmt_2f (x : pyfloat) : pystr :=
  match x with
  | Infinity => u "inf"
  | Finite m e =>
      let cents := if (0 <=? e)%Z then (m * pow2 e * 100)%N
                   else div_rne (m * 100) (pow2 (- e)) in
      N_to_str (cents / 100) ++ u "."
        ++ [(48 + (cents mod 100) / 10)%N; (48 + (cents mod 100) mod 10)%N]
  end.

(** ** [parse_price_info] *)

Record PriceInfo := {
  mrp : pystr;
  discounted_price : pystr
}.

Definition NA : pystr := u "N/A".

(** [\s*] *)
Definition ws : regex := Star Space.

(** [(\d+(?:\.\d+)?)] *)
Definition amount : regex :=
  Group (Seq (Plus Digit) (Opt (Seq (Lit (ch ".")) (Plus Digit)))).

(** [₹\s*(\d+(?:\.\d+)?)] *)
Definition rupee_amount : regex := Seq (Lit rupee) (Seq ws amount).

Local Infix "@@" := Seq (at level 60, right associativity).

Definition mrp_patterns : list regex :=
  [ Str "MRP" @@ ws @@ rupee_amount;
    Str "MRP" @@ ws @@ Str "Rs" @@ Opt (Lit (ch ".")) @@ ws @@ amount;
    Str "Maximum Retail Price" @@ ws @@ rupee_amount ].

(** [.*?] *)
Definition lazy_any : regex := LazyStar AnyChar.

Definition discounted_patterns : list regex :=
  [ Str "Discounted Price:" @@ ws @@ rupee_amount;
    Str "Offer Price:" @@ ws @@ rupee_amount;
    Str "Best Price:" @@ ws @@ rupee_amount;
    Str "Final Price:" @@ ws @@ rupee_amount;
    rupee_amount @@ ws @@ Lit (ch "(") @@ lazy_any @@ Str "off" @@ lazy_any
      @@ Lit (ch ")");
    rupee_amount @@ ws @@ Str "after" @@ lazy_any @@ Str "discount" ].

(** [for pattern in patterns: match = re.search(pattern, text,
    re.IGNORECASE); if match: ...; break]: the match of the first pattern
    that has one. *)
Fixpoint first_match (patterns : list regex) (text : pystr)
    : option MatchObj :=
  match patterns with
  | [] => None
  | pattern :: rest =>
      match re_search true pattern text with
      | Some m => Some m
      | None => first_match rest text
      end
  end.

(** [if '.' in v and len(v.split('.')[1]) > 2: v = f"{float(v):.2f}"] *)
Definition clean_decimals (v : pystr) : pystr :=
  if contains (u ".") v
     && (2 <? length (hd [] (snd (split_char (ch ".") v))))%nat
  then fmt_2f (py_float v)
  else v.

(** The loop over [mrp_patterns], from [mrp = "N/A"]. *)
Definition labeled_mrp (price_text : pystr) : pystr :=
  match first_match mrp_patterns price_text with
  | Some m => rupee :: clean_decimals (group1 m)
  | None => NA
  end.

(** The loop over [discounted_patterns], from [discounted_price = "N/A"]. *)
Definition labeled_discounted (price_text : pystr) : pystr :=
  match first_match discounted_patterns price_text with
  | Some m => rupee :: group1 m
  | None => NA
  end.

(** [if 'MRP' in price_text and '₹' in price_text: ...]: the first two
    amounts fill the fields that are still ["N/A"]. *)
Definition fill_from_amounts (price_text : pystr) (md : pystr * pystr)
    : pystr * pystr :=
  let '(mrp, discounted_price) := md in
  if contains (u "MRP") price_text && contains [rupee] price_text then
    let prices := re_findall false rupee_amount price_text in
    if (2 <=? length prices)%nat then
      (if str_eqb mrp NA then rupee :: nth 0 prices [] else mrp,
       if str_eqb discounted_price NA then rupee :: nth 1 prices []
       else discounted_price)
    else (mrp, discounted_price)
  else (mrp, discounted_price).

(** [if discounted_price == "N/A" and mrp != "N/A": ... elif ...] *)
Definition mirror (md : pystr * pystr) : pystr * pystr :=
  let '(mrp, discounted_price) := md in
  if str_eqb discounted_price NA && negb (str_eqb mrp NA) then (mrp, mrp)
  else if str_eqb mrp NA && negb (str_eqb discounted_price NA)
       then (discounted_price, discounted_price)
       else (mrp, discounted_price).

(** The fields after the labeled patterns and the two-amount rule, before
    mirroring. *)
Definition price_cascade (price_text : pystr) : pystr * pystr :=
  fill_from_amounts price_text
    (labeled_mrp price_text, labeled_discounted price_text).

Definition parse_price_info (price_text : pystr) : PriceInfo :=
  let price_text := normalize_ws price_text in
  let '(mrp, discounted_price) := mirror (price_cascade price_text) in
  {| mrp := mrp; discounted_price := discounted_price |}.


(** ** [clean_price_text] *)

(** [.*] *)
Definition any_star : regex := Star AnyChar.

(** [(?!.*MRP)] *)
Definition not_before_mrp : regex := NegLook (any_star @@ Str "MRP").

Definition non_mrp_patterns : list regex :=
  [ rupee_amount @@ not_before_mrp;
    Str "Rs" @@ Opt (Lit (ch ".")) @@ ws @@ amount @@ not_before_mrp;
    Str "INR" @@ ws @@ amount @@ not_before_mrp ].

(** [Discounted Price:\s*(\d+(?:\.\d+)?)] *)
Definition bare_discount_pattern : regex :=
  Str "Discounted Price:" @@ ws @@ amount.

(** [MRP.*?₹\s*(\d+(?:\.\d+)?)] *)
Definition mrp_then_amount : regex := Str "MRP" @@ lazy_any @@ rupee_amount.

(** [(?:after|off|discount|offer).*?₹\s*(\d+(?:\.\d+)?)] *)
Definition offer_then_amount : regex :=
  Alt (Str "after") (Alt (Str "off") (Alt (Str "discount") (Str "offer")))
    @@ lazy_any @@ rupee_amount.

(** [[₹Rs]\.?\s*(\d+(?:\.\d+)?)] *)
Definition any_currency_amount : regex :=
  OneOf [rupee; ch "R"; ch "s"] @@ Opt (Lit (ch ".")) @@ ws @@ amount.

(** The block under [if 'MRP' in price_text and '₹' in price_text] of
    [clean_price_text]: [Some] is a [return]. *)
Definition second_amount (price_text : pystr) : option pystr :=
  if contains (u "MRP") price_text && contains [rupee] price_text then
    let prices := re_findall false rupee_amount price_text in
    if (2 <=? length prices)%nat then Some (rupee :: nth 1 prices [])
    else if (length prices =? 1)%nat then
      match re_search true mrp_then_amount price_text with
      | Some _ =>
          match re_findall true offer_then_amount price_text with
          | p :: _ => Some (rupee :: p)
          | [] => None
          end
      | None => None
      end
    else None
  else None.

Definition clean_price_text (price_text : pystr) : pystr :=
  let price_text := normalize_ws price_text in
  match first_match discounted_patterns price_text with
  | Some m => rupee :: group1 m
  | None =>
  match
    (if contains (u "Discounted Price:") price_text
     then re_search true bare_discount_pattern price_text else None)
  with
  | Some m => rupee :: group1 m
  | None =>
  match second_amount price_text with
  | Some p => p
  | None =>
  match first_match non_mrp_patterns price_text with
  | Some m => rupee :: group1 m
  | None =>
  match re_search true any_currency_amount price_text with
  | Some m => rupee :: group1 m
  | None =>
      if (length price_text <? 20)%nat
         && (contains [rupee] price_text || contains (u "Rs") price_text)
      then price_text
      else NA
  end end end end end.

(** ** The parsed document

    Parsing and CSS selection belong to BeautifulSoup.  A document is what
    the program can ask of it: [select_one], which may raise (a selector it
    cannot parse), the text of the whole document, the [img] tags, the JSON-LD
    scripts and the [og:image] meta tag. *)

Record Tag := {
  (** [tag.get_text(strip=True)] *)
  get_text_strip : pystr;
  (** [tag.get(name)] is the value paired with [name], if any *)
  attrs : list (pystr * pystr)
}.

Fixpoint lookup {A} (key : pystr) (l : list (pystr * A)) : option A :=
  match l with
  | [] => None
  | (k, v) :: l' => if str_eqb k key then Some v else lookup key l'
  end.

Definition tag_get (t : Tag) (name : String.string) : option pystr :=
  lookup (u name) (attrs t).
Arguments tag_get t name%_string.

(** What [json.loads] returns, as far as the program looks into it. *)
#[local] Unset Elimination Schemes.
Inductive json :=
| JStr (s : pystr)
| JList (l : list json)
| JDict (items : list (pystr * json))
| JAtom.
#[local] Set Elimination Schemes.

(** A [script type="application/ld+json"]: [json.loads(script.string)]
    returns a value, raises [JSONDecodeError], or raises something else (a
    [TypeError] when the script has no string). *)
Inductive ld_script :=
| Loaded (data : json)
| DecodeError
| LoadsRaises.

Record Soup := {
  select_one : pystr -> exn + option Tag;
  get_text : pystr;
  find_all_img : list Tag;
  find_all_ld_json : list ld_script;
  find_og_image : option Tag
}.

(** The truth value of a string, and of [None]. *)
Definition truthy (s : option pystr) : bool :=
  match s with Some (_ :: _) => true | _ => false end.

(** [a or b] *)
Definition py_or (a b : option pystr) : option pystr :=
  if truthy a then a else b.

(** ** [extract_field] *)

Definition is_price_selector (selector : pystr) : bool :=
  contains (u "price") (str_lower selector) || contains (u "Price") selector.

Fixpoint extract_field (soup : Soup) (selectors : list pystr) : pystr :=
  match selectors with
  | [] => NA
  | selector :: rest =>
      match select_one soup selector with
      | inl _ => extract_field soup rest
      | inr None => extract_field soup rest
      | inr (Some element) =>
          let text := get_text_strip element in
          if truthy (Some text) && negb (str_eqb text []) then
            if is_price_selector selector then
              let text := clean_price_text text in
              if truthy (Some text) && negb (str_eqb text NA) then text
              else text
            else text
          else extract_field soup rest
      end
  end.

(** ** [extract_quantity] *)

Definition quantity_selectors : list pystr :=
  [ u ".DrugHeader__pack-size"; u ".DrugHeader__quantity";
    u ".ProductInfo__pack-size"; u ".ProductInfo__quantity";
    u ".pack-size"; u ".quantity"; u ".tablet-count"; u ".strip-count";
    u "[class*='pack']"; u "[class*='quantity']"; u "[class*='count']";
    u "[class*='size']" ].

(** [w s?] for a unit word [w] *)
Definition plural (w : String.string) : regex := Str w @@ Opt (Lit (ch "s")).
Arguments plural w%_string.

(** [(\d+(?:\.\d+)?)\s*(?:tablets?|tabs?|strips?|capsules?|pills?)] *)
Definition quantity_pattern : regex :=
  amount @@ ws @@
  Alt (plural "tablet") (Alt (plural "tab") (Alt (plural "strip")
    (Alt (plural "capsule") (plural "pill")))).

Definition quantity_patterns : list regex :=
  [ amount @@ ws @@ plural "tablet" @@ ws @@ Str "in" @@ ws @@ Plus Digit
      @@ ws @@ Str "strip";
    amount @@ ws @@ plural "tablet";
    amount @@ ws @@ plural "tab";
    amount @@ ws @@ plural "strip";
    amount @@ ws @@ plural "capsule";
    amount @@ ws @@ plural "pill";
    amount @@ ws @@ plural "piece" ].

(** [if q.endswith('.0'): q = q[:-2]; return f"{q} tablets"] *)
Definition format_quantity (quantity_num : pystr) : pystr :=
  (if endswith (u ".0") quantity_num
   then firstn (length quantity_num - 2) quantity_num
   else quantity_num) ++ u " tablets".

(** The loop over the selectors; [None] when it ends without a [return]. *)
Fixpoint quantity_from_selectors (soup : Soup) (selectors : list pystr)
    : option pystr :=
  match selectors with
  | [] => None
  | selector :: rest =>
      match select_one soup selector with
      | inl _ => quantity_from_selectors soup rest
      | inr None => quantity_from_selectors soup rest
      | inr (Some element) =>
          let text := get_text_strip element in
          if truthy (Some text) && negb (str_eqb text []) then
            match re_search true quantity_pattern text with
            | Some quantity_match => Some (format_quantity (group1 quantity_match))
            | None =>
                match re_search false (Plus Digit) text with
                | Some _ => Some text
                | None => quantity_from_selectors soup rest
                end
            end
          else quantity_from_selectors soup rest
      end
  end.

Definition extract_quantity (soup : Soup) : pystr :=
  match quantity_from_selectors soup quantity_selectors with
  | Some q => q
  | None =>
      match first_match quantity_patterns (get_text soup) with
      | Some m => format_quantity (group1 m)
      | None => NA
      end
  end.

(** ** [extract_price_info] *)

Definition price_containers : list pystr :=
  [ u ".DrugPriceBox"; u ".PriceBox"; u ".DrugPrice"; u ".PriceBoxPlanOption";
    u ".SubstituteItem__unit-price___MIbLo";
    u "[class*='price']"; u "[class*='Price']"; u "[class*='cost']";
    u ".price-display"; u ".price-container"; u ".pricing" ].

Definition individual_selectors : list pystr :=
  [ u ".DrugPriceBox__best-price___32JXw"; u ".DrugPriceBox__price";
    u ".PriceBox__price"; u ".PriceBox__best-price";
    u ".SubstituteItem__unit-price___MIbLo";
    u ".PriceBoxPlanOption__offerPrice"; u ".PriceBoxPlanOption__price";
    u ".DrugPrice__price"; u ".DrugPrice__best-price";
    u ".style__price-tag"; u ".price-display"; u ".price"; u ".best-price";
    u ".offer-price"; u "[class*='price']"; u "[class*='Price']";
    u "[class*='cost']" ].

(** [price_info.get("discounted_price") != "N/A" or
    price_info.get("mrp") != "N/A"] *)
Definition found_a_price (price_info : PriceInfo) : bool :=
  negb (str_eqb (discounted_price price_info) NA)
  || negb (str_eqb (mrp price_info) NA).

(** The two loops differ in the test on the text: [with_currency] is the
    container loop, which wants a rupee sign or [Rs] in it. *)
Fixpoint price_from_selectors (with_currency : bool) (soup : Soup)
    (selectors : list pystr) : option PriceInfo :=
  match selectors with
  | [] => None
  | selector :: rest =>
      match select_one soup selector with
      | inl _ => price_from_selectors with_currency soup rest
      | inr None => price_from_selectors with_currency soup rest
      | inr (Some element) =>
          let text := get_text_strip element in
          if truthy (Some text)
             && (if with_currency
                 then contains [rupee] text || contains (u "Rs") text
                 else negb (str_eqb text []))
          then
            let price_info := parse_price_info text in
            if found_a_price price_info then Some price_info
            else price_from_selectors with_currency soup rest
          else price_from_selectors with_currency soup rest
      end
  end.

Definition extract_price_info (soup : Soup) : PriceInfo :=
  match price_from_selectors true soup price_containers with
  | Some price_info => price_info
  | None =>
      match price_from_selectors false soup individual_selectors with
      | Some price_info => price_info
      | None => {| mrp := NA; discounted_price := NA |}
      end
  end.

(** ** [extract_image] *)

Definition image_selectors : list pystr :=
  [ u "img[class*='product-image']"; u "img[class*='ProductImage']";
    u "img[class*='medicine-image']"; u "img[class*='drug-image']";
    u ".ProductImage img"; u ".ProductImage__image img"; u ".DrugImage img";
    u ".MedicineImage img"; u ".product-photo img"; u ".product-image img";
    u ".medicine-photo img"; u ".drug-photo img";
    u "img.style__product-image___3CRoG"; u ".product-image img";
    u ".medicine-image"; u ".product-photo img";
    u "img[src*='1mg']"; u "img[data-src*='1mg']"; u "img[alt*='medicine']";
    u "img[alt*='drug']"; u "img[alt*='product']" ].

Definition image_extensions : list pystr :=
  [ u ".jpg"; u ".jpeg"; u ".png"; u ".webp"; u ".gif" ].

(** [any(ext in src.lower() for ext in ['.jpg', '.jpeg', '.png', '.webp',
    '.gif'])] *)
Definition has_image_extension (src : pystr) : bool :=
  existsb (fun ext => contains ext (str_lower src)) image_extensions.

(** The clean-up of the primary loop: [//...], [/...], and anything that
    does not start with [http]. *)
Definition resolve_src (base_url img_src : pystr) : exn + pystr :=
  if startswith (u "//") img_src then inr (u "https:" ++ img_src)
  else if startswith (u "/") img_src then urljoin base_url img_src
  else if negb (startswith (u "http") img_src) then urljoin base_url img_src
  else inr img_src.

(** The clean-up of the fallbacks: [//...] and [/...] only. *)
Definition absolutize (base_url src : pystr) : exn + pystr :=
  if startswith (u "//") src then inr (u "https:" ++ src)
  else if startswith (u "/") src then urljoin base_url src
  else inr src.

(** The loop over [image_selectors]; [None] when it ends without a
    [return]. *)
Fixpoint image_from_selectors (soup : Soup) (base_url : pystr)
    (selectors : list pystr) : option pystr :=
  match selectors with
  | [] => None
  | selector :: rest =>
      match select_one soup selector with
      | inl _ => image_from_selectors soup base_url rest
      | inr None => image_from_selectors soup base_url rest
      | inr (Some img_tag) =>
          let img_src :=
            py_or (tag_get img_tag "src")
              (py_or (tag_get img_tag "data-src")
                 (py_or (tag_get img_tag "data-lazy-src")
                    (tag_get img_tag "data-original"))) in
          match img_src with
          | Some (c :: src') =>
              match resolve_src base_url (c :: src') with
              | inl _ => image_from_selectors soup base_url rest
              | inr img_src =>
                  if has_image_extension img_src then Some img_src
                  else image_from_selectors soup base_url rest
              end
          | _ => image_from_selectors soup base_url rest
          end
      end
  end.

(** The loop over [soup.find_all('img')]; an exception ends the block. *)
Fixpoint image_from_all_images (base_url : pystr) (all_images : list Tag)
    : option pystr :=
  match all_images with
  | [] => None
  | img :: rest =>
      match py_or (tag_get img "src") (tag_get img "data-src") with
      | Some (c :: src') =>
          let src := c :: src' in
          if contains (u "1mg") src && has_image_extension src then
            match absolutize base_url src with
            | inl _ => None
            | inr src => Some src
            end
          else image_from_all_images base_url rest
      | _ => image_from_all_images base_url rest
      end
  end.

(** One JSON-LD script: [inr (Some url)] is a [return], [inr None] goes on
    to the next script, [inl tt] is an exception that ends the block. *)
Definition image_from_ld_data (base_url : pystr) (data : json)
    : unit + option pystr :=
  match data with
  | JDict items =>
      match lookup (u "image") items with
      | Some (JStr img_url) =>
          match absolutize base_url img_url with
          | inl _ => inl tt
          | inr img_url => inr (Some img_url)
          end
      | Some (JList (JStr img_url :: _)) =>
          match absolutize base_url img_url with
          | inl _ => inl tt
          | inr img_url => inr (Some img_url)
          end
      | Some (JList (_ :: _)) => inl tt
      | _ => inr None
      end
  | _ => inr None
  end.

Fixpoint image_from_ld_json (base_url : pystr) (scripts : list ld_script)
    : option pystr :=
  match scripts with
  | [] => None
  | script :: rest =>
      match script with
      | DecodeError => image_from_ld_json base_url rest
      | LoadsRaises => None
      | Loaded data =>
          match image_from_ld_data base_url data with
          | inl _ => None
          | inr (Some img_url) => Some img_url
          | inr None => image_from_ld_json base_url rest
          end
      end
  end.

Definition image_from_meta (base_url : pystr) (meta_image : option Tag)
    : option pystr :=
  match meta_image with
  | Some meta =>
      match tag_get meta "content" with
      | Some (c :: img_url') =>
          match absolutize base_url (c :: img_url') with
          | inl _ => None
          | inr img_url => Some img_url
          end
      | _ => None
      end
  | None => None
  end.

Definition extract_image (soup : Soup) (base_url : pystr) : pystr :=
  match image_from_selectors soup base_url image_selectors with
  | Some img_src => img_src
  | None =>
  match image_from_all_images base_url (find_all_img soup) with
  | Some src => src
  | None =>
  match image_from_ld_json base_url (find_all_ld_json soup) with
  | Some img_url => img_url
  | None =>
  match image_from_meta base_url (find_og_image soup) with
  | Some img_url => img_url
  | None => NA
  end end end end.

(** ** [create_error_record] *)

Definition create_error_record (url error_msg : pystr) : PageRecord.t :=
  {| PageRecord.name := u "Error";
     PageRecord.mrp := u "Error";
     PageRecord.discounted_price := u "Error";
     PageRecord.price := u "Error";
     PageRecord.quantity := u "Error";
     PageRecord.image := u "Error";
     PageRecord.manufacturer := u "Error";
     PageRecord.composition := u "Error";
     PageRecord.url := url;
     PageRecord.status := error_msg |}.

(** ** [scrape_medicine] *)

(** The world as the program uses it.  [requests_get url] is
    [requests.get(url, headers=headers, timeout=15)]; [BeautifulSoup] is the
    parse of the body with ["html.parser"]; [to_csv] and [json_dump] write a
    snapshot of the rows to the named file, the latter being the three
    statements of the inner [try] of the batch loop. *)
Class Platform (W : Type) := {
  time_sleep : Z -> M W unit;
  requests_get : pystr -> M W Response;
  BeautifulSoup : pystr -> exn + Soup;
  to_csv : pystr -> list PageRecord.t -> M W unit;
  json_dump : pystr -> list PageRecord.t -> M W unit
}.

Context {W : Type} {P : Platform W}.

(** [response.raise_for_status()] *)
Definition raise_for_status (response : Response) : M W unit :=
  match http_error response with
  | Some msg => raise (RequestException msg)
  | None => ret tt
  end.

Definition name_selectors : list pystr :=
  [ u ".DrugHeader__title"; u ".DrugHeader__name"; u ".ProductInfo__title";
    u ".ProductInfo__name"; u "h1[class*='DrugHeader']";
    u "h1[class*='ProductInfo']"; u "h1[class*='title']";
    u "h1[class*='name']"; u "h1"; u ".style__product-name";
    u ".medicine-name"; u ".drug-name"; u ".product-title";
    u "[class*='title']"; u "[class*='name']" ].

Definition manufacturer_selectors : list pystr :=
  [ u ".DrugHeader__manufacturer"; u ".DrugHeader__brand-name";
    u ".DrugHeader__company"; u ".ProductInfo__manufacturer";
    u ".ProductInfo__brand"; u ".manufacturer"; u ".brand-name";
    u ".company-name"; u ".drug-manufacturer"; u ".medicine-brand";
    u "[class*='manufacturer']"; u "[class*='brand']";
    u "[class*='company']" ].

Definition composition_selectors : list pystr :=
  [ u ".DrugHeader__salt-info"; u ".DrugHeader__composition";
    u ".ProductInfo__composition"; u ".ProductInfo__salt"; u ".salt-info";
    u ".composition"; u ".medicine-composition"; u ".drug-composition";
    u ".salt-composition"; u "[class*='salt']"; u "[class*='composition']";
    u "[class*='ingredient']" ].

(** The dictionary literal [result = {...}]. *)
Definition success_record (name image manufacturer composition quantity : pystr)
    (price_info : PriceInfo) (url : pystr) : PageRecord.t :=
  {| PageRecord.name := name;
     PageRecord.mrp := mrp price_info;
     PageRecord.discounted_price := discounted_price price_info;
     PageRecord.price := discounted_price price_info;
     PageRecord.quantity := quantity;
     PageRecord.image := image;
     PageRecord.manufacturer := manufacturer;
     PageRecord.composition := composition;
     PageRecord.url := url;
     PageRecord.status := u "Success" |}.

(** The extraction of every field from the parsed document, in the order of
    the program, and the record. *)
Definition assemble (soup : Soup) (url : pystr) : PageRecord.t :=
  let name := extract_field soup name_selectors in
  let image := extract_image soup url in
  let manufacturer := extract_field soup manufacturer_selectors in
  let composition := extract_field soup composition_selectors in
  let quantity := extract_quantity soup in
  let price_info := extract_price_info soup in
  success_record name image manufacturer composition quantity price_info url.

(** The body of the [try]. *)
Definition scrape_body (url : pystr) (delay : Z) : M W PageRecord.t :=
  time_sleep delay ;;;
  response <- requests_get url ;;
  raise_for_status response ;;;
  soup <- lift (BeautifulSoup (text response)) ;;
  ret (assemble soup url).

(** The text of [status] that the two [except] clauses build from the
    exception. *)
Definition error_cause (e : exn) : pystr :=
  match e with
  | RequestException _ => u "Network error: " ++ exn_str e
  | OtherException _ => u "Parsing error: " ++ exn_str e
  end.

Definition scrape_medicine (url : pystr) (delay : Z) : M W PageRecord.t :=
  try_except (scrape_body url delay)
    (fun e => ret (create_error_record url (error_cause e))).

(** ** [scrape_medicines_batch] *)

(** [f"progress_backup_{i}.csv"], [f"progress_backup_{i}.json"] *)
Definition progress_file (i : N) : pystr :=
  u "progress_backup_" ++ N_to_str i ++ u ".csv".
Definition progress_json (i : N) : pystr :=
  u "progress_backup_" ++ N_to_str i ++ u ".json".

(** One turn of the loop, for the [i]-th URL, on the list [results] so far.
    [results.append] changes the list in place, so what was appended before
    an exception is still there in the handler. *)
Definition batch_step (delay : Z) (save_progress : bool) (i : N)
    (url : pystr) (results : list PageRecord.t) : M W (list PageRecord.t) :=
  fun w =>
    match scrape_medicine url delay w with
    | (inl e, w1) =>
        (inr (results ++ [create_error_record url (exn_str e)]), w1)
    | (inr result, w1) =>
        let results := results ++ [result] in
        if save_progress && (i mod 5 =? 0)%N then
          match to_csv (progress_file i) results w1 with
          | (inl e, w2) =>
              (inr (results ++ [create_error_record url (exn_str e)]), w2)
          | (inr _, w2) =>
              let '(_, w3) := json_dump (progress_json i) results w2 in
              (inr results, w3)
          end
        else (inr results, w1)
    end.

(** [for i, url in enumerate(urls, 1)], from index [i] on. *)
Fixpoint batch_loop (delay : Z) (save_progress : bool) (i : N)
    (urls : list pystr) (results : list PageRecord.t) : M W (list PageRecord.t) :=
  match urls with
  | [] => ret results
  | url :: rest =>
      results' <- batch_step delay save_progress i url results ;;
      batch_loop delay save_progress (i + 1) rest results'
  end.

(** The data frame is the list of its rows. *)
Definition scrape_medicines_batch (urls : list pystr) (delay : Z)
    (save_progress : bool) : M W (list PageRecord.t) :=
  match urls with
  | [] => ret []
  | _ => batch_loop delay save_progress 1 urls []
  end.

End Program.

(** ** Stated properties

    The invariant of a row: its [price] is its [discounted_price]. *)
Definition price_is_discounted (r : PageRecord.t) : Prop :=
  PageRecord.price r = PageRecord.discounted_price r.

(** In the words of the specification, an image URL is accepted when its
    path ends with a known image extension; the path is the URL up to its
    query or fragment. *)
Fixpoint spec_url_path (url : pystr) : pystr :=
  match url with
  | [] => []
  | c :: rest =>
      if ((c =? ch "?") || (c =? ch "#"))%N then []
      else c :: spec_url_path rest
  end.

Definition spec_path_ends_with_image_extension (url : pystr) : bool :=
  existsb (fun ext => endswith ext (str_lower (spec_url_path url)))
    image_extensions.

(** ** Example documents and worlds

    The examples are evaluated on the Basic Latin table.  Their URLs are
    absolute, so [urljoin], which returns an absolute URL as it is, is never
    asked to join anything. *)

#[export] Instance urljoin_absolute : UrlLib := {
  urljoin := fun _ url => inr url
}.

Definition text_tag (t : String.string) : Tag :=
  {| get_text_strip := u t; attrs := [] |}.
Arguments text_tag t%_string.

Definition img_tag (src : String.string) : Tag :=
  {| get_text_strip := []; attrs := [(u "src", u src)] |}.
Arguments img_tag src%_string.

(** A document in which each listed selector selects the tag paired with it
    and no other selector selects anything, with the given text. *)
Definition page (nodes : list (pystr * Tag)) (all_text : String.string)
    : Soup :=
  {| select_one := fun selector => inr (lookup selector nodes);
     get_text := u all_text;
     find_all_img := [];
     find_all_ld_json := [];
     find_og_image := None |}.
Arguments page nodes all_text%_string.

(** A world in which the pages of some URLs time out and the others come
    back empty, and in which the working directory may be read-only. *)
Record World := {
  unreachable : list pystr;
  read_only : bool
}.

Definition write_file (w : World) : (exn + unit) * World :=
  if read_only w
  then (inl (OtherException (u "[Errno 13] Permission denied")), w)
  else (inr tt, w).

#[export] Instance example_platform : Platform World := {
  time_sleep := fun delay =>
    if (delay <? 0)%Z
    then raise (OtherException (u "sleep length must be non-negative"))
    else ret tt;
  requests_get := fun url w =>
    if existsb (str_eqb url) (unreachable w)
    then (inl (RequestException (u "Read timed out.")), w)
    else (inr {| text := []; http_error := None |}, w);
  BeautifulSoup := fun _ => inr (page [] "");
  to_csv := fun _ _ => write_file;
  json_dump := fun _ _ => write_file
}.

(** A price text whose offer is broken over two lines: the line break is
    white space, which [parse_price_info] makes a blank before it matches. *)
Definition offer_on_two_lines : pystr :=
  u "₹45 (9%" ++ [10%N] ++ u "off) MRP: ₹55 ₹50".

Definition url_a : pystr := u "https://www.1mg.com/drugs/a-1".
Definition url_b : pystr := u "https://www.1mg.com/drugs/b-2".
Definition url_c : pystr := u "https://www.1mg.com/drugs/c-3".
Definition url_d : pystr := u "https://www.1mg.com/drugs/d-4".
Definition url_e : pystr := u "https://www.1mg.com/drugs/e-5".

(** ** The language of a pattern

    What a pattern can match, apart from the order in which the matcher
    tries: [matches ic r t g g'] says that [r] matches exactly the text [t]
    and takes group 1 from [g] to [g'].  A lookahead consumes nothing and
    leaves the group alone; what it looks at is not recorded. *)

Section Language.

Context {U : UnicodeDB}.

Inductive matches (ic : bool) : regex -> pystr -> pystr -> pystr -> Prop :=
| M_Eps g : matches ic Eps [] g g
| M_Lit p c g : lit_match ic p c = true -> matches ic (Lit p) [c] g g
| M_Digit c g : isdigit c = true -> matches ic Digit [c] g g
| M_Space c g : isspace c = true -> matches ic Space [c] g g
| M_AnyChar c g : (c =? 10)%N = false -> matches ic AnyChar [c] g g
| M_OneOf cs c g :
    existsb (fun p => lit_match ic p c) cs = true ->
    matches ic (OneOf cs) [c] g g
| M_Seq r1 r2 t1 t2 g g1 g2 :
    matches ic r1 t1 g g1 -> matches ic r2 t2 g1 g2 ->
    matches ic (Seq r1 r2) (t1 ++ t2) g g2
| M_AltL r1 r2 t g g' : matches ic r1 t g g' -> matches ic (Alt r1 r2) t g g'
| M_AltR r1 r2 t g g' : matches ic r2 t g g' -> matches ic (Alt r1 r2) t g g'
| M_OptSome r t g g' : matches ic r t g g' -> matches ic (Opt r) t g g'
| M_OptNone r g : matches ic (Opt r) [] g g
| M_StarNil r g : matches ic (Star r) [] g g
| M_StarCons r t1 t2 g g1 g2 :
    matches ic r t1 g g1 -> matches ic (Star r) t2 g1 g2 ->
    matches ic (Star r) (t1 ++ t2) g g2
| M_LazyNil r g : matches ic (LazyStar r) [] g g
| M_LazyCons r t1 t2 g g1 g2 :
    matches ic r t1 g g1 -> matches ic (LazyStar r) t2 g1 g2 ->
    matches ic (LazyStar r) (t1 ++ t2) g g2
| M_Group r t g g' : matches ic r t g g' -> matches ic (Group r) t g t
| M_NegLook r g : matches ic (NegLook r) [] g g.

(** A word of [s.split()]: not empty, and without white space. *)
Definition word (w : pystr) : Prop :=
  w <> [] /\ Forall (fun c => isspace c = false) w.

(** A non-empty run of decimal digits. *)
Definition digits (s : pystr) : Prop :=
  s <> [] /\ Forall (fun c => isdigit c = true) s.

(** A numeral: digits, or digits, a point and digits. *)
Definition numeral (g : pystr) : Prop :=
  digits g
  \/ exists ip fp, g = ip ++ ch "." :: fp /\ digits ip /\ digits fp.

(** Under [re.IGNORECASE] the point of a pattern still matches the point
    only: it has no case. *)
Definition point_has_no_case : Prop :=
  forall c, ignorecase_eq (ch ".") c = true -> c = ch ".".

(** Every match of the pattern goes through its group. *)
Fixpoint must_set (r : regex) : bool :=
  match r with
  | Group _ => true
  | Seq r1 r2 => must_set r1 || must_set r2
  | Alt r1 r2 => must_set r1 && must_set r2
  | _ => false
  end.

(** Every group of the pattern matches texts in [G] only. *)
Fixpoint groups_in (G : pystr -> Prop) (ic : bool) (r : regex) : Prop :=
  match r with
  | Group r' => forall t g g', matches ic r' t g g' -> G t
  | Seq r1 r2 | Alt r1 r2 => groups_in G ic r1 /\ groups_in G ic r2
  | Star r' | LazyStar r' | Opt r' => groups_in G ic r'
  | _ => True
  end.


(** [g] occurs in [t]. *)
Definition occurs_in (g t : pystr) : Prop :=
  exists a b, t = a ++ g ++ b.

(** A numeral of the text [t]: a numeral that occurs in [t]. *)
Definition numeral_of (t g : pystr) : Prop :=
  numeral g /\ occurs_in g t.

(** A field that is the sentinel or starts with the rupee sign. *)
Definition NA_or_rupee (v : pystr) : Prop :=
  v = NA \/ exists a, v = rupee :: a.

(** What a price field of [parse_price_info] can hold, [t] being the price
    text with its white space normalised: the sentinel, or the rupee sign
    followed by a numeral of [t], as it stands there or in the two-decimal
    format of its float. *)
Definition price_of (t v : pystr) : Prop :=
  v = NA
  \/ (exists g, numeral_of t g /\ v = rupee :: g)
  \/ (exists g, numeral_of t g /\ v = rupee :: fmt_2f (py_float g)).

End Language.

(** ** [extract_price_comprehensive] *)

(** The two loops of [extract_price_comprehensive], which are those of
    [extract_price_info] with [clean_price_text] in the place of
    [parse_price_info]. *)
Section PriceComprehensive.

Context {U : UnicodeDB}.



End PriceComprehensive.

(** ** [save_results] *)

(** [s.replace(old, new)] for a non-empty [old]: every occurrence, from the
    left, without overlap.  [skip] counts the characters of an occurrence
    that are still to be passed over. *)
Fixpoint replace_from (old new : pystr) (skip : nat) (s : pystr) : pystr :=
  match s with
  | [] => []
  | c :: s' =>
      match skip with
      | S k => replace_from old new k s'
      | O =>
          if startswith old s
          then new ++ replace_from old new (length old - 1) s'
          else c :: replace_from old new 0 s'
      end
  end.

Definition str_replace (old new s : pystr) : pystr :=
  replace_from old new 0 s.

(** [filename.replace('.csv', '.xlsx')], [filename.replace('.csv',
    '.json')] *)
Definition excel_file (filename : pystr) : pystr :=
  str_replace (u ".csv") (u ".xlsx") filename.
Definition json_file (filename : pystr) : pystr :=
  str_replace (u ".csv") (u ".json") filename.

(** [df.to_excel(file, index=False)] writes the file, or raises
    [ImportError] (no [openpyxl]), which [save_results] tells from the other
    exceptions. *)
Inductive excel_outcome :=
| ExcelWritten
| ExcelImportError
| ExcelRaises (e : exn).

Class ExcelWriter (W : Type) := {
  to_excel : pystr -> list PageRecord.t -> W -> excel_outcome * W
}.

Section SaveResults.

Context {U : UnicodeDB} {W : Type} {P : Platform W} {X : ExcelWriter W}.

(** The result is [Some filename] for [return filename] and [None] for
    [return None]. *)
Definition save_results (df : list PageRecord.t) (filename : pystr)
    : M W (option pystr) :=
  fun w =>
    match to_csv filename df w with
    | (inl _, w1) => (inr None, w1)
    | (inr _, w1) =>
        match to_excel (excel_file filename) df w1 with
        | (ExcelRaises _, w2) => (inr None, w2)
        | (_, w2) =>
            let '(_, w3) := json_dump (json_file filename) df w2 in
            (inr (Some filename), w3)
        end
    end.

End SaveResults.

(** ** Further example documents and worlds *)

(** A locator that selects nothing that has text: it raises, it selects no
    node, or it selects a node whose text is empty. *)
Definition no_text (soup : Soup) (selector : pystr) : Prop :=
  match select_one soup selector with
  | inl _ => True
  | inr None => True
  | inr (Some element) => get_text_strip element = []
  end.

(** A document like [page], in which the selector [bad] cannot be parsed:
    [select_one] raises on it. *)
Definition page_rejecting (bad : pystr) (nodes : list (pystr * Tag)) : Soup :=
  {| select_one := fun selector =>
       if str_eqb selector bad
       then inl (OtherException (u "Invalid selector"))
       else inr (lookup selector nodes);
     get_text := [];
     find_all_img := [];
     find_all_ld_json := [];
     find_og_image := None |}.

(** A site that answers every request with status 404. *)
Definition not_found_platform : Platform unit := {|
  time_sleep := fun _ => ret tt;
  requests_get := fun url =>
    ret {| text := u "Not Found";
           http_error := Some (u "404 Client Error: Not Found for url: "
                               ++ url) |};
  BeautifulSoup := fun _ => inr (page [] "");
  to_csv := fun _ _ => ret tt;
  json_dump := fun _ _ => ret tt
|}.

(** A machine without [openpyxl], on the world of the examples. *)
#[export] Instance no_openpyxl : ExcelWriter World := {
  to_excel := fun _ _ w => (ExcelImportError, w)
}.

(** * Properties *)

Section Strings.

Lemma str_eqb_eq (a b : pystr) : str_eqb a b = true <-> a = b.
Proof.
  revert b; induction a as [|x a IH]; intros [|y b]; simpl;
    try (split; (discriminate || reflexivity)).
  rewrite andb_true_iff, N.eqb_eq, IH.
  split; [intros [-> ->]; reflexivity | intros [= -> ->]; auto].
Qed.

Lemma str_eqb_refl (a : pystr) : str_eqb a a = true.
Proof. apply str_eqb_eq; reflexivity. Qed.

Lemma str_eqb_neq (a b : pystr) : str_eqb a b = false <-> a <> b.
Proof.
  rewrite <- str_eqb_eq. destruct (str_eqb a b); split;
    (congruence || discriminate || auto).
Qed.

(** A formatted amount is never the sentinel. *)
Lemma rupee_not_NA (v : pystr) : str_eqb (rupee :: v) NA = false.
Proof. reflexivity. Qed.

Lemma startswith_app (p s : pystr) : startswith p (p ++ s) = true.
Proof.
  induction p as [|x p IH]; simpl; [reflexivity|].
  rewrite N.eqb_refl; exact IH.
Qed.

Lemma contains_cons (p s : pystr) (c : char) :
  contains p s = true -> contains p (c :: s) = true.
Proof. intros H; simpl. rewrite H. apply orb_true_r. Qed.

End Strings.

Section PriceProperties.

Context {U : UnicodeDB}.

(** A search for a rupee amount succeeds only on a text with a rupee
    sign. *)
Lemma re_search_rupee_amount (s : pystr) (m : MatchObj) :
  re_search false rupee_amount s = Some m -> contains [rupee] s = true.
Proof.
  induction s as [|c s IH].
  - cbn. discriminate.
  - unfold rupee_amount at 1. cbn [re_search rmatch step_char lit_match].
    destruct (rupee =? c)%N eqn:E.
    + intros _. cbn [contains startswith]. rewrite E. reflexivity.
    + intros H. apply contains_cons, IH, H.
Qed.

Lemma re_findall_rupee_amount (s p : pystr) (l : list pystr) :
  re_findall false rupee_amount s = p :: l -> contains [rupee] s = true.
Proof.
  unfold re_findall. cbn [findall_fuel].
  destruct (re_search false rupee_amount s) as [m|] eqn:E; [|discriminate].
  intros _. exact (re_search_rupee_amount _ E).
Qed.

Lemma mirror_both_or_neither (m d : pystr) :
  fst (mirror (m, d)) = NA <-> snd (mirror (m, d)) = NA.
Proof.
  unfold mirror.
  destruct (str_eqb d NA) eqn:Ed, (str_eqb m NA) eqn:Em; simpl;
    rewrite ?str_eqb_eq, ?str_eqb_neq in *; split; congruence.
Qed.

(** X13.  A value matched by a discount-labeled pattern is formatted as it was
    matched, with all its decimals. *)
Lemma parse_price_info_discounted_verbatim (text : pystr) (m : MatchObj) :
  first_match discounted_patterns (normalize_ws text) = Some m ->
  discounted_price (parse_price_info text) = rupee :: group1 m.
Proof.
  intros H.
  unfold parse_price_info, price_cascade, labeled_discounted,
    fill_from_amounts.
  rewrite H.
  destruct (contains _ _ && contains _ _);
    [destruct (2 <=? _)%nat|];
    rewrite ?rupee_not_NA; unfold mirror; rewrite rupee_not_NA;
    cbn [andb negb]; rewrite andb_true_r;
    match goal with |- context [str_eqb ?x NA] => destruct (str_eqb x NA) end;
    reflexivity.
Qed.

(** X12.  A value matched by an MRP-labeled pattern goes through the clean-up of
    the decimals. *)
Lemma parse_price_info_labeled_mrp_cleaned (text : pystr) (m : MatchObj) :
  first_match mrp_patterns (normalize_ws text) = Some m ->
  mrp (parse_price_info text) = rupee :: clean_decimals (group1 m).
Proof.
  intros H.
  unfold parse_price_info, price_cascade, labeled_mrp, fill_from_amounts.
  rewrite H.
  destruct (contains _ _ && contains _ _);
    [destruct (2 <=? _)%nat|];
    rewrite ?rupee_not_NA; unfold mirror; rewrite rupee_not_NA;
    cbn [andb negb]; rewrite ?andb_true_r, ?andb_false_r;
    match goal with |- context [str_eqb ?x NA] => destruct (str_eqb x NA) end;
    reflexivity.
Qed.

(** The format of a finite value ends with a point and two decimal
    digits. *)
Lemma fmt_2f_two_decimals (m : N) (e : Z) :
  exists ip d1 d2,
    fmt_2f (Finite m e) = ip ++ ch "." :: [d1; d2]
    /\ (48 <= d1 <= 57)%N /\ (48 <= d2 <= 57)%N.
Proof.
  unfold fmt_2f.
  match goal with |- context [N_to_str (?c / 100)] => set (cents := c) end.
  clearbody cents.
  exists (N_to_str (cents / 100)), (48 + cents mod 100 / 10)%N,
    (48 + (cents mod 100) mod 10)%N.
  split; [reflexivity|].
  assert (cents mod 100 < 100)%N as H100 by (apply N.mod_lt; discriminate).
  assert ((cents mod 100) mod 10 < 10)%N as H10
    by (apply N.mod_lt; discriminate).
  assert (cents mod 100 / 10 < 10)%N as Hd
    by (apply N.Div0.div_lt_upper_bound; exact H100).
  revert H10 Hd.
  generalize ((cents mod 100) mod 10)%N, (cents mod 100 / 10)%N.
  intros; lia.
Qed.

(** C6, as amended.  The conditions are read on the price text after the
    white-space normalisation with which [parse_price_info] begins, and an
    amount is a match of the rupee-sign pattern ([Rs] amounts do not count):
    when no MRP-labeled and no discount-labeled pattern matches that text, and
    it contains the token [MRP] and at least two such amounts,
    [parse_price_info] takes the first amount as the MRP and the second as
    the discounted price. *)
Theorem parse_price_info_two_amounts (text p0 p1 : pystr)
    (more : list pystr) :
  first_match mrp_patterns (normalize_ws text) = None ->
  first_match discounted_patterns (normalize_ws text) = None ->
  contains (u "MRP") (normalize_ws text) = true ->
  re_findall false rupee_amount (normalize_ws text) = p0 :: p1 :: more ->
  parse_price_info text
  = {| mrp := rupee :: p0; discounted_price := rupee :: p1 |}.
Proof.
  intros Hm Hd Hmrp Hall.
  unfold parse_price_info, price_cascade, labeled_mrp, labeled_discounted,
    fill_from_amounts.
  rewrite Hm, Hd, Hmrp, (re_findall_rupee_amount _ Hall), Hall.
  cbn [andb length Nat.leb nth]. rewrite str_eqb_refl.
  unfold mirror. rewrite !rupee_not_NA. reflexivity.
Qed.

(** C7.  When the pattern cascade finds exactly one of the two prices,
    [parse_price_info] copies it into the other field; the result never has
    exactly one of the two fields equal to ["N/A"]. *)
Theorem parse_price_info_mirrors_single_price (text m d : pystr) :
  price_cascade (normalize_ws text) = (m, d) ->
  (m <> NA -> d = NA ->
   parse_price_info text = {| mrp := m; discounted_price := m |})
  /\ (m = NA -> d <> NA ->
      parse_price_info text = {| mrp := d; discounted_price := d |})
  /\ (mrp (parse_price_info text) = NA
      <-> discounted_price (parse_price_info text) = NA).
Proof.
  intros H. unfold parse_price_info. rewrite H.
  pose proof (mirror_both_or_neither m d) as Hiff.
  unfold mirror in *.
  destruct (str_eqb d NA) eqn:Ed, (str_eqb m NA) eqn:Em; simpl in *;
    rewrite ?str_eqb_eq, ?str_eqb_neq in *;
    repeat split; try tauto; try congruence; intros; congruence.
Qed.

End PriceProperties.

Section FieldProperties.

Context {U : UnicodeDB} {L : UrlLib}.

(** [extract_field] returns at the first locator whose node has text: when
    the locator is a price locator and the clean-up finds nothing, what it
    returns is the sentinel, whatever the later locators select. *)
Lemma extract_field_returns_failed_cleanup (soup : Soup) (selector : pystr)
    (rest : list pystr) (element : Tag) :
  select_one soup selector = inr (Some element) ->
  get_text_strip element <> [] ->
  is_price_selector selector = true ->
  clean_price_text (get_text_strip element) = NA ->
  extract_field soup (selector :: rest) = NA.
Proof.
  intros Hsel Htext Hprice Hclean. cbn [extract_field].
  rewrite Hsel, Hprice, Hclean.
  destruct (get_text_strip element) as [|c t]; [congruence|].
  reflexivity.
Qed.

(** *** Quantity *)

Lemma quantity_from_selectors_cons (soup : Soup) (selector : pystr)
    (rest : list pystr) :
  quantity_from_selectors soup (selector :: rest)
  = match quantity_from_selectors soup [selector] with
    | Some q => Some q
    | None => quantity_from_selectors soup rest
    end.
Proof.
  cbn [quantity_from_selectors].
  destruct (select_one soup selector) as [e|[element|]]; try reflexivity.
  destruct (truthy _ && _); [|reflexivity].
  destruct (re_search true quantity_pattern _); [reflexivity|].
  destruct (re_search false (Plus Digit) _); reflexivity.
Qed.

Lemma quantity_from_selectors_app (soup : Soup) (pre post : list pystr) :
  quantity_from_selectors soup pre = None ->
  quantity_from_selectors soup (pre ++ post)
  = quantity_from_selectors soup post.
Proof.
  induction pre as [|selector pre IH]; [reflexivity|].
  intros H. rewrite <- app_comm_cons.
  rewrite (quantity_from_selectors_cons soup selector (pre ++ post)).
  rewrite (quantity_from_selectors_cons soup selector pre) in H.
  destruct (quantity_from_selectors soup [selector]); [discriminate|].
  exact (IH H).
Qed.

(** No quantity is found in the empty text: a match has a digit. *)
Lemma quantity_pattern_nonempty (m : MatchObj) :
  re_search true quantity_pattern [] = Some m -> False.
Proof. vm_compute. discriminate. Qed.

(** The selector loop: the first node that has text, if the quantity
    pattern matches its text, decides. *)
Lemma extract_quantity_from_selector (soup : Soup) (pre post : list pystr)
    (selector : pystr) (element : Tag) (m : MatchObj) :
  quantity_selectors = pre ++ selector :: post ->
  quantity_from_selectors soup pre = None ->
  select_one soup selector = inr (Some element) ->
  re_search true quantity_pattern (get_text_strip element) = Some m ->
  extract_quantity soup = format_quantity (group1 m).
Proof.
  intros Hlist Hpre Hsel Hm. unfold extract_quantity.
  rewrite Hlist, (quantity_from_selectors_app _ _ _ Hpre).
  cbn [quantity_from_selectors]. rewrite Hsel.
  destruct (get_text_strip element) as [|c t] eqn:Et.
  - destruct (quantity_pattern_nonempty Hm).
  - cbn [truthy str_eqb negb andb]. rewrite Hm. reflexivity.
Qed.

(** The fallback on the text of the whole document. *)
Lemma extract_quantity_from_document (soup : Soup) (m : MatchObj) :
  quantity_from_selectors soup quantity_selectors = None ->
  first_match quantity_patterns (get_text soup) = Some m ->
  extract_quantity soup = format_quantity (group1 m).
Proof.
  intros Hsel Hm. unfold extract_quantity. rewrite Hsel, Hm. reflexivity.
Qed.

Lemma str_eqb_skipn_app (n p : pystr) :
  str_eqb (skipn (length (n ++ p) - length p) (n ++ p)) p = true.
Proof.
  rewrite length_app, Nat.add_sub, skipn_app, Nat.sub_diag, skipn_all.
  apply str_eqb_refl.
Qed.

Lemma format_quantity_strips_dot_zero (n : pystr) :
  format_quantity (n ++ u ".0") = n ++ u " tablets".
Proof.
  unfold format_quantity, endswith.
  rewrite str_eqb_skipn_app, length_app.
  replace (length (u ".0") <=? length n + length (u ".0"))%nat with true
    by (symmetry; apply Nat.leb_le; lia).
  cbn [andb]. change (length (u ".0")) with 2%nat.
  rewrite Nat.add_sub, firstn_app, Nat.sub_diag, firstn_all.
  cbn [firstn]. rewrite app_nil_r. reflexivity.
Qed.

Lemma format_quantity_keeps_other (q : pystr) :
  endswith (u ".0") q = false -> format_quantity q = q ++ u " tablets".
Proof. intros H. unfold format_quantity. rewrite H. reflexivity. Qed.

(** *** Image *)

(** The primary loop returns only what passed its test. *)
Lemma image_from_selectors_has_extension (soup : Soup) (base_url : pystr)
    (selectors : list pystr) (img_src : pystr) :
  image_from_selectors soup base_url selectors = Some img_src ->
  has_image_extension img_src = true.
Proof.
  induction selectors as [|selector rest IH]; cbn [image_from_selectors].
  - discriminate.
  - destruct (select_one soup selector) as [e|[img_tag|]]; try exact IH.
    destruct (py_or _ _) as [[|c src]|]; try exact IH.
    destruct (resolve_src base_url (c :: src)) as [e|resolved]; try exact IH.
    destruct (has_image_extension resolved) eqn:E; try exact IH.
    intros [= <-]. exact E.
Qed.

(** C9, as amended.  The primary image-locator loop returns a resolved URL
    only if the lower-cased URL contains one of [.jpg], [.jpeg], [.png],
    [.webp], [.gif] somewhere; a URL that contains none of them is never
    accepted by that loop. *)
Theorem image_from_selectors_contains_extension (soup : Soup)
    (base_url img_src : pystr) :
  image_from_selectors soup base_url image_selectors = Some img_src ->
  exists ext,
    In ext image_extensions /\ contains ext (str_lower img_src) = true.
Proof.
  intros H. apply image_from_selectors_has_extension in H.
  unfold has_image_extension in H. apply existsb_exists in H.
  exact H.
Qed.

End FieldProperties.

Section RunProperties.

Context {U : UnicodeDB} {L : UrlLib} {W : Type} {P : Platform W}.

Lemma success_record_price_is_discounted
    (name image manufacturer composition quantity : pystr)
    (price_info : PriceInfo) (url : pystr) :
  price_is_discounted
    (success_record name image manufacturer composition quantity price_info
       url).
Proof. reflexivity. Qed.

Lemma assemble_price_is_discounted (soup : Soup) (url : pystr) :
  price_is_discounted (assemble soup url).
Proof. apply success_record_price_is_discounted. Qed.

Lemma success_record_price
    (name image manufacturer composition quantity : pystr)
    (price_info : PriceInfo) (url : pystr) :
  PageRecord.price
    (success_record name image manufacturer composition quantity price_info
       url)
  = discounted_price price_info.
Proof. reflexivity. Qed.

Lemma assemble_price (soup : Soup) (url : pystr) :
  PageRecord.price (assemble soup url) = discounted_price (extract_price_info soup).
Proof. apply success_record_price. Qed.

Lemma success_record_url
    (name image manufacturer composition quantity : pystr)
    (price_info : PriceInfo) (url : pystr) :
  PageRecord.url
    (success_record name image manufacturer composition quantity price_info
       url)
  = url.
Proof. reflexivity. Qed.

Lemma assemble_url (soup : Soup) (url : pystr) :
  PageRecord.url (assemble soup url) = url.
Proof. apply success_record_url. Qed.

Lemma scrape_medicine_unfold (url : pystr) (delay : Z) (w : W) :
  scrape_medicine url delay w
  = match scrape_body url delay w with
    | (inl e, w') => (inr (create_error_record url (error_cause e)), w')
    | (inr r, w') => (inr r, w')
    end.
Proof. reflexivity. Qed.

(** What the body returns, when it returns, is the record assembled from
    some parsed document. *)
Lemma scrape_body_returns (url : pystr) (delay : Z) (w w' : W) (r : PageRecord.t) :
  scrape_body url delay w = (inr r, w') ->
  exists soup, r = assemble soup url.
Proof.
  unfold scrape_body, bind, lift, ret, raise_for_status, raise.
  destruct (time_sleep delay w) as [[e|[]] w1]; [discriminate|].
  destruct (requests_get url w1) as [[e|response] w2]; [discriminate|].
  destruct (http_error response); [discriminate|].
  destruct (BeautifulSoup (text response)) as [e|soup]; [discriminate|].
  intros [= <- _]. exists soup; reflexivity.
Qed.

(** [scrape_medicine] raises nothing, and its record carries the URL it was
    given. *)
Lemma scrape_medicine_returns (url : pystr) (delay : Z) (w : W) :
  exists r w',
    scrape_medicine url delay w = (inr r, w')
    /\ PageRecord.url r = url /\ price_is_discounted r.
Proof.
  rewrite scrape_medicine_unfold.
  destruct (scrape_body url delay w) as [[e|r] w'] eqn:E.
  - exists (create_error_record url (error_cause e)), w'.
    repeat split.
  - destruct (scrape_body_returns _ _ _ E) as [soup ->].
    exists (assemble soup url), w'.
    split; [reflexivity|].
    split; [apply assemble_url | apply assemble_price_is_discounted].
Qed.

(** One turn of the batch loop appends the row of the URL, and after it,
    only when the snapshot could not be written, an error row for the same
    URL. *)
Lemma batch_step_appends (delay : Z) (save_progress : bool) (i : N)
    (url : pystr) (results : list PageRecord.t) (w : W) :
  exists r extra w',
    batch_step delay save_progress i url results w
    = (inr (results ++ r :: extra), w')
    /\ PageRecord.url r = url /\ price_is_discounted r
    /\ (extra = []
        \/ exists e w1 w2,
             extra = [create_error_record url (exn_str e)]
             /\ save_progress = true /\ (i mod 5 = 0)%N
             /\ to_csv (progress_file i) (results ++ [r]) w1 = (inl e, w2)).
Proof.
  unfold batch_step.
  destruct (scrape_medicine_returns url delay w) as (r & w1 & -> & Hu & Hp).
  destruct save_progress; cbn [andb].
  - destruct (i mod 5 =? 0)%N eqn:Ei.
    + destruct (to_csv (progress_file i) (results ++ [r]) w1)
        as [[e|[]] w2] eqn:Ecsv.
      * exists r, [create_error_record url (exn_str e)], w2.
        rewrite <- app_assoc. repeat split; auto.
        right. exists e, w1, w2. apply N.eqb_eq in Ei. auto.
      * destruct (json_dump _ _ w2) as [x w3].
        exists r, [], w3. repeat split; auto.
    + exists r, [], w1. repeat split; auto.
  - exists r, [], w1. repeat split; auto.
Qed.

(** The loop raises nothing, and every row it adds satisfies the
    invariant. *)
Lemma batch_loop_rows (delay : Z) (save_progress : bool)
    (urls : list pystr) :
  forall (i : N) (results : list PageRecord.t) (w : W),
    Forall price_is_discounted results ->
    exists rows w',
      batch_loop delay save_progress i urls results w = (inr rows, w')
      /\ Forall price_is_discounted rows.
Proof.
  induction urls as [|url rest IH]; intros i results w Hres;
    cbn [batch_loop].
  - exists results, w. split; [reflexivity|assumption].
  - unfold bind.
    destruct (batch_step_appends delay save_progress i url results w)
      as (r & extra & w1 & -> & _ & Hp & Hextra).
    apply IH. apply Forall_app; split; [assumption|].
    constructor; [assumption|].
    destruct Hextra as [->|(e & _ & _ & -> & _)]; repeat constructor.
Qed.



(** C2.  Whenever the fetch or the extraction of a URL raises (a
    [RequestException] from the network, or any other exception),
    [scrape_medicine] raises nothing: it returns the error record, whose
    every extracted field is ["Error"], whose [url] is the URL, and whose
    [status] is the cause, ["Network error: ..."] or ["Parsing error: ..."]
    followed by the text of the exception. *)
Theorem scrape_medicine_error_record (url : pystr) (delay : Z) (w w' : W)
    (e : exn) :
  scrape_body url delay w = (inl e, w') ->
  exists r,
    scrape_medicine url delay w = (inr r, w')
    /\ PageRecord.name r = u "Error" /\ PageRecord.mrp r = u "Error"
    /\ PageRecord.discounted_price r = u "Error" /\ PageRecord.price r = u "Error"
    /\ PageRecord.quantity r = u "Error" /\ PageRecord.image r = u "Error"
    /\ PageRecord.manufacturer r = u "Error" /\ PageRecord.composition r = u "Error"
    /\ PageRecord.url r = url
    /\ PageRecord.status r
       = match e with
         | RequestException msg => u "Network error: " ++ msg
         | OtherException msg => u "Parsing error: " ++ msg
         end.
Proof.
  intros H. exists (create_error_record url (error_cause e)).
  rewrite scrape_medicine_unfold, H.
  repeat split. destruct e; reflexivity.
Qed.

(** C10.  In every record the scraper produces, the [price] field equals the
    [discounted_price] field: in the record of a successful extraction, in
    an error record, in what [scrape_medicine] returns, and in every row of
    a batch. *)
Theorem price_equals_discounted_price :
  (forall soup url, price_is_discounted (assemble soup url)
                    /\ PageRecord.price (assemble soup url)
                       = discounted_price (extract_price_info soup))
  /\ (forall url msg, price_is_discounted (create_error_record url msg))
  /\ (forall url delay (w : W), exists r w',
        scrape_medicine url delay w = (inr r, w') /\ price_is_discounted r)
  /\ (forall urls delay save_progress (w : W), exists rows w',
        scrape_medicines_batch urls delay save_progress w = (inr rows, w')
        /\ Forall price_is_discounted rows).
Proof.
  split; [|split; [|split]].
  - intros soup url.
    split; [apply assemble_price_is_discounted | apply assemble_price].
  - intros url msg. reflexivity.
  - intros url delay w.
    destruct (scrape_medicine_returns url delay w) as (r & w' & E & _ & Hp).
    exists r, w'. split; assumption.
  - intros urls delay save_progress w. unfold scrape_medicines_batch.
    destruct urls as [|url rest].
    + exists [], w. split; [reflexivity|constructor].
    + apply batch_loop_rows. constructor.
Qed.

End RunProperties.

(** ** The price examples of the specification, and the witnesses *)

Lemma parse_price_info_two_amounts_witness :
  parse_price_info (u "MRP: ₹55 ₹50")
  = {| mrp := u "₹55"; discounted_price := u "₹50" |}.
Proof.
  apply (parse_price_info_two_amounts (u "MRP: ₹55 ₹50") (more := []));
    vm_compute; reflexivity.
Defined.

Lemma parse_price_info_mirrors_single_price_witness :
  parse_price_info (u "MRP ₹199")
  = {| mrp := u "₹199"; discounted_price := u "₹199" |}.
Proof.
  refine (proj1 (parse_price_info_mirrors_single_price (u "MRP ₹199")
                  (m := u "₹199") (d := NA) _) _ _).
  - vm_compute; reflexivity.
  - vm_compute; discriminate.
  - reflexivity.
Defined.

(** ** The batch *)

(** C1, at the input where the code departs from it: five URLs, progress
    saving on, a working directory that cannot be written.  Every page is
    scraped, the snapshot after the fifth fails, and the handler of the loop
    appends an error row for the fifth URL after its row: six rows for five
    URLs. *)
Theorem scrape_medicines_batch_failed_snapshot_adds_row :
  exists rows w',
    scrape_medicines_batch [url_a; url_b; url_c; url_d; url_e] 0 true
      {| unreachable := []; read_only := true |} = (inr rows, w')
    /\ length rows = 6%nat
    /\ map PageRecord.url rows = [url_a; url_b; url_c; url_d; url_e; url_e]
    /\ map PageRecord.status rows
       = [u "Success"; u "Success"; u "Success"; u "Success"; u "Success";
          u "[Errno 13] Permission denied"].
Proof.
  eexists _, _. split; [vm_compute; reflexivity|].
  repeat split.
Qed.

(** The example of the specification: a time-out on one URL of four gives
    three ["Success"] rows and one error row. *)
Example batch_with_one_timeout :
  exists rows w',
    scrape_medicines_batch [url_a; url_b; url_c; url_d] 0 true
      {| unreachable := [url_c]; read_only := false |} = (inr rows, w')
    /\ map PageRecord.url rows = [url_a; url_b; url_c; url_d]
    /\ map PageRecord.status rows
       = [u "Success"; u "Success"; u "Network error: Read timed out.";
          u "Success"]
    /\ nth_error rows 2
       = Some (create_error_record url_c (u "Network error: Read timed out.")).
Proof.
  eexists _, _. split; [vm_compute; reflexivity|].
  repeat split.
Qed.

Lemma scrape_medicine_error_record_witness :
  exists r,
    scrape_medicine url_c 2 {| unreachable := [url_c]; read_only := false |}
    = (inr r, {| unreachable := [url_c]; read_only := false |})
    /\ PageRecord.name r = u "Error" /\ PageRecord.mrp r = u "Error"
    /\ PageRecord.discounted_price r = u "Error" /\ PageRecord.price r = u "Error"
    /\ PageRecord.quantity r = u "Error" /\ PageRecord.image r = u "Error"
    /\ PageRecord.manufacturer r = u "Error" /\ PageRecord.composition r = u "Error"
    /\ PageRecord.url r = url_c
    /\ PageRecord.status r = u "Network error: Read timed out.".
Proof.
  apply (scrape_medicine_error_record url_c 2
           {| unreachable := [url_c]; read_only := false |}
           (e := RequestException (u "Read timed out."))).
  vm_compute. reflexivity.
Defined.

(** ** Fields *)

(** C3, at an input where the code departs from it.  The locator [.price]
    suggests a price field and selects a node with the text [free]; price
    clean-up finds no value in it.  The next locator, [.cost], selects a node
    with the text [₹50].  [extract_field] does not go on to [.cost]: it
    returns the sentinel at [.price]. *)
Theorem extract_field_returns_at_failed_price_cleanup :
  let soup := page [(u ".price", text_tag "free");
                    (u ".cost", text_tag "₹50")] "" in
  is_price_selector (u ".price") = true
  /\ clean_price_text (u "free") = u "N/A"
  /\ extract_field soup [u ".cost"] = u "₹50"
  /\ extract_field soup [u ".price"; u ".cost"] = u "N/A".
Proof. vm_compute. repeat split. Qed.

(** C8.  When the quantity pattern matches the text that decides (the text
    of the first quantity locator whose node has text, or else the text of
    the whole document), the extractor returns the matched number, without a
    trailing [.0], followed by [" tablets"], whatever the unit word was. *)
Theorem extract_quantity_reports_tablets :
  (forall (U : UnicodeDB) soup pre selector post element m,
      quantity_selectors = pre ++ selector :: post ->
      quantity_from_selectors soup pre = None ->
      select_one soup selector = inr (Some element) ->
      re_search true quantity_pattern (get_text_strip element) = Some m ->
      extract_quantity soup = format_quantity (group1 m))
  /\ (forall (U : UnicodeDB) soup m,
        quantity_from_selectors soup quantity_selectors = None ->
        first_match quantity_patterns (get_text soup) = Some m ->
        extract_quantity soup = format_quantity (group1 m))
  /\ (forall n, format_quantity (n ++ u ".0") = n ++ u " tablets")
  /\ (forall q, endswith (u ".0") q = false ->
                format_quantity q = q ++ u " tablets")
  /\ extract_quantity
       (page [(u ".pack-size", text_tag "15.0 tablets in 1 strip")] "")
     = u "15 tablets"
  /\ extract_quantity (page [(u ".quantity", text_tag "2 capsules")] "")
     = u "2 tablets"
  /\ extract_quantity (page [] "Pack: 15.0 tablets in 1 strip")
     = u "15 tablets"
  /\ extract_quantity (page [] "2 capsules") = u "2 tablets".
Proof.
  split; [intros; eapply extract_quantity_from_selector; eassumption|].
  split; [intros; eapply extract_quantity_from_document; eassumption|].
  split; [exact format_quantity_strips_dot_zero|].
  split; [exact format_quantity_keeps_other|].
  vm_compute. repeat split.
Qed.

(** C9 as stated fails: the loop accepts a URL whose path does not end with
    an image extension, because [.jpg] occurs inside it. *)
Lemma image_from_selectors_accepts_inner_extension :
  image_from_selectors
    (page [(u "img[class*='product-image']",
            img_tag "https://www.1mg.com/images/photo.jpg.html")] "")
    (u "https://www.1mg.com/drugs/a-1") image_selectors
  = Some (u "https://www.1mg.com/images/photo.jpg.html")
  /\ spec_path_ends_with_image_extension
       (u "https://www.1mg.com/images/photo.jpg.html") = false.
Proof. vm_compute. split; reflexivity. Qed.

Lemma image_from_selectors_contains_extension_witness :
  exists ext,
    In ext image_extensions
    /\ contains ext
         (str_lower (u "https://www.1mg.com/images/photo.jpg.html")) = true.
Proof.
  apply (image_from_selectors_contains_extension
           (page [(u "img[class*='product-image']",
                   img_tag "https://www.1mg.com/images/photo.jpg.html")] "")
           (u "https://www.1mg.com/drugs/a-1")).
  vm_compute. reflexivity.
Defined.

(** ** Prices *)

(** C6 as stated fails on the text as it is given: on
    [offer_on_two_lines] no labeled pattern matches (the point of the
    pattern does not match the line break), the token [MRP] and three
    amounts are there, and yet the discounted price is the first amount, not
    the second; the normalisation turns the line break into a blank, and the
    discount pattern then matches. *)
Lemma parse_price_info_two_amounts_on_given_text :
  first_match mrp_patterns offer_on_two_lines = None
  /\ first_match discounted_patterns offer_on_two_lines = None
  /\ contains (u "MRP") offer_on_two_lines = true
  /\ re_findall false rupee_amount offer_on_two_lines
     = [u "45"; u "55"; u "50"]
  /\ parse_price_info offer_on_two_lines
     = {| mrp := u "₹45"; discounted_price := u "₹45" |}
  /\ discounted_price (parse_price_info offer_on_two_lines) <> u "₹55".
Proof. vm_compute. repeat split. discriminate. Qed.

(** Amounts written with [Rs] are not amounts of the two-amount rule. *)
Example parse_price_info_rs_amounts :
  parse_price_info (u "MRP: Rs 55 Rs 50")
  = {| mrp := u "N/A"; discounted_price := u "N/A" |}.
Proof. vm_compute. reflexivity. Qed.

(** C4 as stated fails: an amount without a label is not found at all. *)
Lemma parse_price_info_unlabeled_amount_not_mirrored :
  parse_price_info (u "₹199")
  <> {| mrp := u "₹199"; discounted_price := u "₹199" |}.
Proof. vm_compute. discriminate. Qed.

(** C4, as amended.  Parsing ["₹199"], a single amount without a label,
    yields ["N/A"] in both fields, since only labeled amounts are looked
    for; a single labeled price, as in ["MRP ₹199"], is mirrored into both
    fields. *)
Theorem parse_price_info_single_amount :
  parse_price_info (u "₹199")
  = {| mrp := u "N/A"; discounted_price := u "N/A" |}
  /\ parse_price_info (u "MRP ₹199")
     = {| mrp := u "₹199"; discounted_price := u "₹199" |}.
Proof. vm_compute. split; reflexivity. Qed.

(** C5, at an input where the code departs from it.  A value matched as
    MRP is rounded to two decimals (["MRP ₹34.274"] gives ["₹34.27"]); a
    value matched as discounted price is not: ["Discounted Price: ₹50.123"]
    keeps its three decimals, in both fields. *)
Theorem parse_price_info_discounted_price_not_rounded :
  mrp (parse_price_info (u "MRP ₹34.274")) = u "₹34.27"
  /\ parse_price_info (u "Discounted Price: ₹50.123")
     = {| mrp := u "₹50.123"; discounted_price := u "₹50.123" |}
  /\ parse_price_info (u "MRP ₹34.274 Discounted Price: ₹30.123")
     = {| mrp := u "₹34.27"; discounted_price := u "₹30.123" |}.
Proof. vm_compute. repeat split. Qed.

(** The first example of the specification. *)
Example parse_price_info_labeled_pair :
  parse_price_info (u "MRP₹55 Discounted Price: ₹50.1")
  = {| mrp := u "₹55"; discounted_price := u "₹50.1" |}.
Proof. vm_compute. reflexivity. Qed.

(** ** Further examples of the specification *)

(** A protocol-relative source is completed with [https:]. *)
Example extract_image_protocol_relative :
  extract_image
    (page [(u ".product-image img", img_tag "//cdn.site.com/x.jpg")] "")
    (u "https://site.com/page")
  = u "https://cdn.site.com/x.jpg".
Proof. vm_compute. reflexivity. Qed.

(** When no locator matches anything, every extracted field is ["N/A"] and
    the status is ["Success"]. *)
Example assemble_empty_page :
  assemble (page [] "") url_a
  = {| PageRecord.name := u "N/A";
       PageRecord.mrp := u "N/A";
       PageRecord.discounted_price := u "N/A";
       PageRecord.price := u "N/A";
       PageRecord.quantity := u "N/A";
       PageRecord.image := u "N/A";
       PageRecord.manufacturer := u "N/A";
       PageRecord.composition := u "N/A";
       PageRecord.url := url_a;
       PageRecord.status := u "Success" |}.
Proof. vm_compute. reflexivity. Qed.

(** [float] and the two-decimal format round as binary64 does: [2.675] and
    [1.005] lie below the decimal they are written as, [0.125] is a tie and
    goes to the even digit. *)
Example fmt_2f_rounding :
  map (fun v => fmt_2f (py_float v))
    [u "34.274"; u "2.675"; u "1.005"; u "0.125"; u "0.375"]
  = [u "34.27"; u "2.67"; u "1.00"; u "0.12"; u "0.38"].
Proof. vm_compute. reflexivity. Qed.

(** The text named in the comment of [clean_price_text]. *)
Example clean_price_text_bare_discount :
  clean_price_text
    (u "MRP₹55Discount Percentage:9% off₹Discounted Price:50.1")
  = u "₹50.1".
Proof. vm_compute. reflexivity. Qed.

(** * The matcher and the language of a pattern *)

Section MatcherProperties.

Context {U : UnicodeDB}.

Lemma step_char_some {A} (ok : char -> bool) (s : pystr)
    (k : pystr -> option A) (a : A) :
  step_char ok s k = Some a ->
  exists c s', s = c :: s' /\ ok c = true /\ k s' = Some a.
Proof.
  destruct s as [|c s']; cbn; [discriminate|].
  destruct (ok c) eqn:E; [|discriminate].
  intros H. exists c, s'. auto.
Qed.

(** The matcher is sound for the language: what it hands to its
    continuation is a match of the pattern. *)
Lemma rmatch_sound (ic : bool) (r : regex) :
  forall (A : Set) (s g : pystr) (k : pystr -> pystr -> option A) (a : A),
    rmatch ic r s g k = Some a ->
    exists t s' g',
      s = t ++ s' /\ matches ic r t g g' /\ k s' g' = Some a.
Proof.
  induction r as [|p| | | |cs|r1 IH1 r2 IH2|r1 IH1 r2 IH2|r IH|r IH|r IH
                 |r IH|r IH];
    intros A s g k a; cbn [rmatch].
  - intros H. exists [], s, g. repeat split; [constructor|assumption].
  - intros H. apply step_char_some in H as (c & s' & -> & Hc & Hk).
    exists [c], s', g. repeat split; [constructor|]; assumption.
  - intros H. apply step_char_some in H as (c & s' & -> & Hc & Hk).
    exists [c], s', g. repeat split; [constructor|]; assumption.
  - intros H. apply step_char_some in H as (c & s' & -> & Hc & Hk).
    exists [c], s', g. repeat split; [constructor|]; assumption.
  - intros H. apply step_char_some in H as (c & s' & -> & Hc & Hk).
    exists [c], s', g. repeat split; [constructor|assumption].
    destruct (c =? 10)%N; [discriminate|reflexivity].
  - intros H. apply step_char_some in H as (c & s' & -> & Hc & Hk).
    exists [c], s', g. repeat split; [constructor|]; assumption.
  - intros H. apply IH1 in H as (t1 & s1 & g1 & -> & M1 & H).
    apply IH2 in H as (t2 & s2 & g2 & -> & M2 & H).
    exists (t1 ++ t2), s2, g2. rewrite app_assoc.
    repeat split; [econstructor; eassumption|assumption].
  - destruct (rmatch ic r1 s g k) as [a'|] eqn:E.
    + intros [= <-]. apply IH1 in E as (t & s' & g' & -> & M & H).
      exists t, s', g'. repeat split; [apply M_AltL|]; assumption.
    + intros H. apply IH2 in H as (t & s' & g' & -> & M & H).
      exists t, s', g'. repeat split; [apply M_AltR|]; assumption.
  - generalize (length s) as n. intros n; revert s g.
    induction n as [|n IHn]; intros s g.
    + intros H. exists [], s, g. repeat split; [constructor|assumption].
    + match goal with
      | |- match ?x with _ => _ end = _ -> _ => destruct x as [a'|] eqn:E
      end.
      * intros [= <-]. apply IH in E as (t1 & s1 & g1 & -> & M1 & H).
        destruct (length s1 <? length (t1 ++ s1))%nat; [|discriminate].
        apply IHn in H as (t2 & s2 & g2 & -> & M2 & H).
        exists (t1 ++ t2), s2, g2. rewrite app_assoc.
        repeat split; [econstructor; eassumption|assumption].
      * intros H. exists [], s, g.
        repeat split; [constructor|assumption].
  - generalize (length s) as n. intros n; revert s g.
    induction n as [|n IHn]; intros s g.
    + intros H. exists [], s, g. repeat split; [constructor|assumption].
    + destruct (k s g) as [a'|] eqn:E.
      * intros [= <-]. exists [], s, g.
        repeat split; [constructor|assumption].
      * intros H. apply IH in H as (t1 & s1 & g1 & -> & M1 & H).
        destruct (length s1 <? length (t1 ++ s1))%nat; [|discriminate].
        apply IHn in H as (t2 & s2 & g2 & -> & M2 & H).
        exists (t1 ++ t2), s2, g2. rewrite app_assoc.
        repeat split; [econstructor; eassumption|assumption].
  - destruct (rmatch ic r s g k) as [a'|] eqn:E.
    + intros [= <-]. apply IH in E as (t & s' & g' & -> & M & H).
      exists t, s', g'. repeat split; [apply M_OptSome|]; assumption.
    + intros H. exists [], s, g. repeat split; [apply M_OptNone|assumption].
  - intros H. apply IH in H as (t & s' & g' & -> & M & H).
    rewrite length_app, Nat.add_sub, firstn_app, Nat.sub_diag, firstn_all
      in H.
    cbn [firstn] in H. rewrite app_nil_r in H.
    exists t, s', t. repeat split; [econstructor; eassumption|assumption].
  - destruct (rmatch ic r s g _); [discriminate|].
    intros H. exists [], s, g. repeat split; [constructor|assumption].
Qed.

(** A search result is a match of the pattern somewhere in the subject. *)
Lemma re_search_sound (ic : bool) (r : regex) (s : pystr) (m : MatchObj) :
  re_search ic r s = Some m ->
  exists pre t,
    s = pre ++ m_from m /\ m_from m = t ++ m_rest m
    /\ matches ic r t [] (group1 m).
Proof.
  induction s as [|c s IH]; cbn [re_search].
  - destruct (rmatch ic r [] [] _) as [m'|] eqn:E; [|discriminate].
    intros [= <-]. apply rmatch_sound in E as (t & s' & g' & Hs & M & [= <-]).
    exists [], t. cbn. auto.
  - destruct (rmatch ic r (c :: s) [] _) as [m'|] eqn:E.
    + intros [= <-].
      apply rmatch_sound in E as (t & s' & g' & Hs & M & [= <-]).
      exists [], t. cbn. auto.
    + intros H. destruct (IH H) as (pre & t & -> & Hf & M).
      exists (c :: pre), t. cbn. auto.
Qed.

Lemma first_match_sound (patterns : list regex) (text : pystr)
    (m : MatchObj) :
  first_match patterns text = Some m ->
  exists pattern,
    In pattern patterns /\ re_search true pattern text = Some m.
Proof.
  induction patterns as [|pattern rest IH]; cbn [first_match];
    [discriminate|].
  destruct (re_search true pattern text) as [m'|] eqn:E.
  - intros [= <-]. exists pattern. split; [left; reflexivity|assumption].
  - intros H. destruct (IH H) as (p & Hin & Hp).
    exists p. split; [right|]; assumption.
Qed.

(** A match leaves the group as it was or sets it to a text of a group of
    the pattern. *)
Lemma matches_group (G : pystr -> Prop) (ic : bool) (r : regex)
    (t g g' : pystr) :
  matches ic r t g g' -> groups_in G ic r -> g' = g \/ G g'.
Proof.
  induction 1; cbn [groups_in]; intros HG; auto.
  - destruct HG as [H1 H2].
    destruct (IHmatches2 H2) as [->|]; auto.
  - destruct HG; auto.
  - destruct HG; auto.
  - destruct (IHmatches2 HG) as [->|]; auto.
  - destruct (IHmatches2 HG) as [->|]; auto.
  - right. eapply HG; eassumption.
Qed.

(** A match of a pattern that cannot avoid its group sets the group. *)
Lemma matches_must_set (G : pystr -> Prop) (ic : bool) (r : regex)
    (t g g' : pystr) :
  matches ic r t g g' -> must_set r = true -> groups_in G ic r -> G g'.
Proof.
  induction 1; cbn [must_set groups_in]; try discriminate.
  - intros Hm [H1 H2]. destruct (must_set r2) eqn:E2.
    + auto.
    + rewrite orb_false_r in Hm.
      destruct (matches_group G H0 H2) as [->|]; auto.
  - intros Hm [H1 H2]. apply andb_true_iff in Hm as [Hm1 Hm2]. auto.
  - intros Hm [H1 H2]. apply andb_true_iff in Hm as [Hm1 Hm2]. auto.
  - intros _ HG. eapply HG; eassumption.
Qed.

Lemma search_group (G : pystr -> Prop) (ic : bool) (r : regex)
    (s : pystr) (m : MatchObj) :
  must_set r = true -> groups_in G ic r ->
  re_search ic r s = Some m -> G (group1 m).
Proof.
  intros Hm HG H. apply re_search_sound in H as (pre & t & _ & _ & M).
  exact (matches_must_set G M Hm HG).
Qed.

Lemma first_match_group (G : pystr -> Prop) (patterns : list regex)
    (text : pystr) (m : MatchObj) :
  Forall (fun r => must_set r = true /\ groups_in G true r) patterns ->
  first_match patterns text = Some m -> G (group1 m).
Proof.
  intros Hall H. apply first_match_sound in H as (r & Hin & H).
  rewrite Forall_forall in Hall. destruct (Hall r Hin) as [Hm HG].
  exact (@search_group G _ _ _ _ Hm HG H).
Qed.

Lemma findall_fuel_group (G : pystr -> Prop) (ic : bool) (r : regex) :
  must_set r = true -> groups_in G ic r ->
  forall fuel s, Forall G (findall_fuel fuel ic r s).
Proof.
  intros Hm HG. induction fuel as [|fuel IH]; intros s;
    cbn [findall_fuel]; [constructor|].
  destruct (re_search ic r s) as [m|] eqn:E; [|constructor].
  constructor; [exact (@search_group G _ _ _ _ Hm HG E)|].
  destruct (_ <? _)%nat; [apply IH|].
  destruct (m_rest m); [constructor|apply IH].
Qed.

(** *** The amount pattern *)

Lemma matches_star_digit (ic : bool) (t g g' : pystr) :
  matches ic (Star Digit) t g g' ->
  Forall (fun c => isdigit c = true) t.
Proof.
  intros H. remember (Star Digit) as r eqn:Er.
  induction H; try discriminate; [constructor|].
  injection Er as ->. inversion H; subst.
  constructor; auto.
Qed.

Lemma matches_plus_digit (ic : bool) (t g g' : pystr) :
  matches ic (Plus Digit) t g g' -> digits t.
Proof.
  unfold Plus. intros H. inversion H; subst.
  match goal with
  | H1 : matches _ Digit _ _ _, H2 : matches _ (Star Digit) _ _ _ |- _ =>
      inversion H1; subst; apply matches_star_digit in H2
  end.
  split; [discriminate|]. constructor; assumption.
Qed.

(** The text of the group of [amount] is a numeral. *)
Lemma matches_amount_body (ic : bool) (t g g' : pystr) :
  (ic = true -> point_has_no_case) ->
  matches ic (Seq (Plus Digit) (Opt (Seq (Lit (ch ".")) (Plus Digit)))) t g g'
  -> numeral t.
Proof.
  intros Hpoint H. inversion H; subst.
  match goal with
  | H1 : matches _ (Plus Digit) _ _ _, H2 : matches _ (Opt _) _ _ _ |- _ =>
      apply matches_plus_digit in H1; inversion H2; subst
  end.
  - match goal with
    | H3 : matches _ (Seq (Lit _) _) _ _ _ |- _ => inversion H3; subst
    end.
    match goal with
    | H4 : matches _ (Lit _) _ _ _, H5 : matches _ (Plus Digit) _ _ _ |- _ =>
        inversion H4; subst; apply matches_plus_digit in H5
    end.
    match goal with
    | Hi : digits ?ip, Hf : digits ?fp, Hl : lit_match _ _ ?c = true
      |- numeral (?ip ++ [?c] ++ ?fp) =>
        right; exists ip, fp; split; [|split; assumption];
        cbn [app]; do 2 f_equal;
        unfold lit_match in Hl; destruct ic;
        [exact (Hpoint eq_refl _ Hl) | apply N.eqb_eq in Hl; symmetry; exact Hl]
    end.
  - left. rewrite app_nil_r. assumption.
Qed.

(** *** Where the group comes from *)

Lemma occurs_in_refl (g : pystr) : occurs_in g g.
Proof. exists [], []. rewrite app_nil_r. reflexivity. Qed.

Lemma occurs_in_app_l (g t1 t2 : pystr) :
  occurs_in g t1 -> occurs_in g (t1 ++ t2).
Proof.
  intros (a & b & ->). exists a, (b ++ t2). rewrite <- !app_assoc.
  reflexivity.
Qed.

Lemma occurs_in_app_r (g t1 t2 : pystr) :
  occurs_in g t2 -> occurs_in g (t1 ++ t2).
Proof.
  intros (a & b & ->). exists (t1 ++ a), b. rewrite <- !app_assoc.
  reflexivity.
Qed.

(** A match leaves the group as it was or sets it to a part of the text it
    matched. *)
Lemma matches_occurs (ic : bool) (r : regex) (t g g' : pystr) :
  matches ic r t g g' -> g' = g \/ occurs_in g' t.
Proof.
  induction 1; auto.
  - destruct IHmatches2 as [->|H2]; [|right; apply occurs_in_app_r; exact H2].
    destruct IHmatches1 as [->|H1]; [left; reflexivity|].
    right. apply occurs_in_app_l. exact H1.
  - destruct IHmatches2 as [->|H2]; [|right; apply occurs_in_app_r; exact H2].
    destruct IHmatches1 as [->|H1]; [left; reflexivity|].
    right. apply occurs_in_app_l. exact H1.
  - destruct IHmatches2 as [->|H2]; [|right; apply occurs_in_app_r; exact H2].
    destruct IHmatches1 as [->|H1]; [left; reflexivity|].
    right. apply occurs_in_app_l. exact H1.
  - right. apply occurs_in_refl.
Qed.

Lemma matches_must_occur (ic : bool) (r : regex) (t g g' : pystr) :
  matches ic r t g g' -> must_set r = true -> occurs_in g' t.
Proof.
  induction 1; cbn [must_set]; try discriminate.
  - intros Hm. destruct (must_set r2) eqn:E2.
    + apply occurs_in_app_r. auto.
    + rewrite orb_false_r in Hm.
      destruct (matches_occurs H0) as [->|H2].
      * apply occurs_in_app_l. auto.
      * apply occurs_in_app_r. exact H2.
  - intros Hm. apply andb_true_iff in Hm as [Hm1 Hm2]. auto.
  - intros Hm. apply andb_true_iff in Hm as [Hm1 Hm2]. auto.
  - intros _. apply occurs_in_refl.
Qed.

(** The group of a search result is a text of the group that occurs in the
    subject. *)
Lemma search_group_of (G : pystr -> Prop) (ic : bool) (r : regex)
    (s : pystr) (m : MatchObj) :
  must_set r = true -> groups_in G ic r ->
  re_search ic r s = Some m -> G (group1 m) /\ occurs_in (group1 m) s.
Proof.
  intros Hm HG H. apply re_search_sound in H as (pre & t & -> & Hf & M).
  split; [exact (matches_must_set G M Hm HG)|].
  rewrite Hf. apply occurs_in_app_r, occurs_in_app_l.
  exact (matches_must_occur M Hm).
Qed.

Lemma first_match_group_of (G : pystr -> Prop) (patterns : list regex)
    (text : pystr) (m : MatchObj) :
  Forall (fun r => must_set r = true /\ groups_in G true r) patterns ->
  first_match patterns text = Some m ->
  G (group1 m) /\ occurs_in (group1 m) text.
Proof.
  intros Hall H. apply first_match_sound in H as (r & Hin & H).
  rewrite Forall_forall in Hall. destruct (Hall r Hin) as [Hm HG].
  exact (@search_group_of G _ _ _ _ Hm HG H).
Qed.

Lemma findall_fuel_group_of (G : pystr -> Prop) (ic : bool) (r : regex) :
  must_set r = true -> groups_in G ic r ->
  forall fuel s,
    Forall (fun g => G g /\ occurs_in g s) (findall_fuel fuel ic r s).
Proof.
  intros Hm HG. induction fuel as [|fuel IH]; intros s;
    cbn [findall_fuel]; [constructor|].
  destruct (re_search ic r s) as [m|] eqn:E; [|constructor].
  constructor; [exact (@search_group_of G _ _ _ _ Hm HG E)|].
  apply re_search_sound in E as (pre & t & -> & Hf & _).
  assert (forall rest',
             (exists x, m_rest m = x ++ rest') ->
             Forall (fun g => G g /\ occurs_in g (pre ++ m_from m))
               (findall_fuel fuel ic r rest')) as Hsub.
  { intros rest' [x Hx]. eapply Forall_impl; [|apply IH].
    intros g [Hg Ho]. split; [exact Hg|].
    rewrite Hf, Hx. apply occurs_in_app_r, occurs_in_app_r, occurs_in_app_r.
    exact Ho. }
  destruct (_ <? _)%nat; [apply Hsub; exists []; reflexivity|].
  destruct (m_rest m) as [|c rest'] eqn:Er; [constructor|].
  rewrite <- Er in Hsub. apply Hsub. exists [c]. exact Er.
Qed.

End MatcherProperties.

(** * What the extractors can return *)

Section ShapeProperties.

Context {U : UnicodeDB}.

Hypothesis point : point_has_no_case.

Ltac amount_groups :=
  vm_compute; repeat split;
  let t := fresh "t" in
  let g := fresh "g" in
  let g' := fresh "g'" in
  let H := fresh "H" in
  intros t g g' H;
  refine (matches_amount_body (ic := _) _ H);
  first [intros _; exact point | discriminate].

Ltac pattern_list_groups :=
  repeat (apply Forall_cons; [split; [reflexivity | amount_groups] | ]);
  apply Forall_nil.

Lemma mrp_patterns_groups :
  Forall (fun r => must_set r = true /\ groups_in numeral true r)
    mrp_patterns.
Proof. unfold mrp_patterns. pattern_list_groups. Qed.

Lemma discounted_patterns_groups :
  Forall (fun r => must_set r = true /\ groups_in numeral true r)
    discounted_patterns.
Proof. unfold discounted_patterns. pattern_list_groups. Qed.

Lemma non_mrp_patterns_groups :
  Forall (fun r => must_set r = true /\ groups_in numeral true r)
    non_mrp_patterns.
Proof. unfold non_mrp_patterns. pattern_list_groups. Qed.

Lemma quantity_patterns_groups :
  Forall (fun r => must_set r = true /\ groups_in numeral true r)
    quantity_patterns.
Proof. unfold quantity_patterns. pattern_list_groups. Qed.

Lemma bare_discount_pattern_groups :
  must_set bare_discount_pattern = true
  /\ groups_in numeral true bare_discount_pattern.
Proof. split; [reflexivity | amount_groups]. Qed.

Lemma any_currency_amount_groups :
  must_set any_currency_amount = true
  /\ groups_in numeral true any_currency_amount.
Proof. split; [reflexivity | amount_groups]. Qed.

Lemma quantity_pattern_groups :
  must_set quantity_pattern = true /\ groups_in numeral true quantity_pattern.
Proof. split; [reflexivity | amount_groups]. Qed.

Lemma offer_then_amount_groups :
  must_set offer_then_amount = true
  /\ groups_in numeral true offer_then_amount.
Proof. split; [reflexivity | amount_groups]. Qed.

Lemma rupee_amount_groups :
  must_set rupee_amount = true /\ groups_in numeral false rupee_amount.
Proof. split; [reflexivity | amount_groups]. Qed.

Lemma Forall_nth {A} (G : A -> Prop) (l : list A) (n : nat) (d : A) :
  Forall G l -> (n < length l)%nat -> G (nth n l d).
Proof.
  intros H. revert n. induction H as [|x l Hx Hl IH]; intros [|n]; cbn;
    try lia; auto.
  intros Hn. apply IH. lia.
Qed.

Lemma re_findall_rupee_amount_numerals (s : pystr) :
  Forall (numeral_of s) (re_findall false rupee_amount s).
Proof.
  destruct rupee_amount_groups as [Hm HG].
  exact (@findall_fuel_group_of _ numeral _ _ Hm HG _ s).
Qed.

Lemma clean_decimals_of (t g : pystr) :
  numeral_of t g -> price_of t (rupee :: clean_decimals g).
Proof.
  intros Hg. unfold clean_decimals. destruct (_ && _).
  - right; right. exists g. auto.
  - right; left. exists g. auto.
Qed.

Lemma labeled_mrp_of (t : pystr) : price_of t (labeled_mrp t).
Proof.
  unfold labeled_mrp.
  destruct (first_match mrp_patterns t) as [m|] eqn:E; [|left; reflexivity].
  apply clean_decimals_of.
  eapply first_match_group_of; [exact mrp_patterns_groups|exact E].
Qed.

Lemma labeled_discounted_of (t : pystr) : price_of t (labeled_discounted t).
Proof.
  unfold labeled_discounted.
  destruct (first_match discounted_patterns t) as [m|] eqn:E;
    [|left; reflexivity].
  right; left. exists (group1 m). split; [|reflexivity].
  eapply first_match_group_of; [exact discounted_patterns_groups|exact E].
Qed.

Lemma fill_from_amounts_of (t m d : pystr) :
  price_of t m -> price_of t d ->
  price_of t (fst (fill_from_amounts t (m, d)))
  /\ price_of t (snd (fill_from_amounts t (m, d))).
Proof.
  intros Hm Hd. unfold fill_from_amounts.
  destruct (_ && _); [|split; assumption].
  destruct (2 <=? _)%nat eqn:El; [|split; assumption].
  apply Nat.leb_le in El.
  pose proof (re_findall_rupee_amount_numerals t) as Hall.
  cbn [fst snd]. split.
  - destruct (str_eqb m NA); [|assumption].
    right; left. eexists. split; [|reflexivity].
    apply Forall_nth; [assumption|lia].
  - destruct (str_eqb d NA); [|assumption].
    right; left. eexists. split; [|reflexivity].
    apply Forall_nth; [assumption|lia].
Qed.

Lemma mirror_of (t m d : pystr) :
  price_of t m -> price_of t d ->
  price_of t (fst (mirror (m, d))) /\ price_of t (snd (mirror (m, d))).
Proof.
  intros Hm Hd. unfold mirror.
  destruct (_ && _); [split; assumption|].
  destruct (_ && _); split; assumption.
Qed.

(** X9.  Every price that [parse_price_info] reports is ["N/A"], or the
    rupee sign followed by a numeral that occurs in the price text (with its
    white space normalised), written as it stands there, or (for an MRP with
    more than two decimals) in the two-decimal format of its float. *)
Theorem parse_price_info_fields (text : pystr) :
  price_of (normalize_ws text) (mrp (parse_price_info text))
  /\ price_of (normalize_ws text) (discounted_price (parse_price_info text)).
Proof.
  unfold parse_price_info, price_cascade.
  set (t := normalize_ws text).
  destruct (fill_from_amounts_of (labeled_mrp_of t) (labeled_discounted_of t))
    as [H1 H2].
  destruct (fill_from_amounts t (labeled_mrp t, labeled_discounted t))
    as [m d].
  cbn [fst snd] in H1, H2.
  destruct (mirror_of H1 H2) as [H3 H4].
  destruct (mirror (m, d)) as [m' d']. split; [exact H3|exact H4].
Qed.

(** The ways out of [clean_price_text]. *)
Lemma clean_price_text_cases (price_text : pystr) :
  clean_price_text price_text = NA
  \/ (exists g,
         numeral_of (normalize_ws price_text) g
         /\ clean_price_text price_text = rupee :: g)
  \/ (clean_price_text price_text = normalize_ws price_text
      /\ (length (normalize_ws price_text) < 20)%nat
      /\ (contains [rupee] (normalize_ws price_text) = true
          \/ contains (u "Rs") (normalize_ws price_text) = true)).
Proof.
  unfold clean_price_text. set (t := normalize_ws price_text).
  destruct (first_match discounted_patterns t) as [m|] eqn:E1.
  { right; left. eexists; split; [|reflexivity].
    eapply first_match_group_of; [exact discounted_patterns_groups|exact E1]. }
  match goal with
  | |- context [if ?c then re_search true bare_discount_pattern t else None]
    => destruct (if c then re_search true bare_discount_pattern t else None)
         as [m|] eqn:E2
  end.
  { right; left. eexists; split; [|reflexivity].
    destruct (contains _ t); [|discriminate].
    destruct bare_discount_pattern_groups as [Hm HG].
    eapply search_group_of; eassumption. }
  destruct (second_amount t) as [p|] eqn:E3.
  { right; left. unfold second_amount in E3.
    destruct (_ && _); [|discriminate].
    destruct (2 <=? _)%nat eqn:El.
    - injection E3 as <-. eexists; split; [|reflexivity].
      apply Nat.leb_le in El.
      apply Forall_nth; [apply re_findall_rupee_amount_numerals|lia].
    - destruct (_ =? 1)%nat; [|discriminate].
      destruct (re_search true mrp_then_amount t); [|discriminate].
      destruct (re_findall true offer_then_amount t) as [|p0 l] eqn:Ef;
        [discriminate|].
      injection E3 as <-. eexists; split; [|reflexivity].
      destruct offer_then_amount_groups as [Hm HG].
      assert (Forall (numeral_of t) (re_findall true offer_then_amount t))
        as Hall
        by exact (@findall_fuel_group_of _ numeral _ _ Hm HG _ t).
      rewrite Ef in Hall. inversion Hall; assumption. }
  destruct (first_match non_mrp_patterns t) as [m|] eqn:E4.
  { right; left. eexists; split; [|reflexivity].
    eapply first_match_group_of; [exact non_mrp_patterns_groups|exact E4]. }
  destruct (re_search true any_currency_amount t) as [m|] eqn:E5.
  { right; left. eexists; split; [|reflexivity].
    destruct any_currency_amount_groups as [Hm HG].
    eapply search_group_of; eassumption. }
  destruct (length t <? 20)%nat eqn:El; cbn [andb]; [|left; reflexivity].
  destruct (contains [rupee] t) eqn:Ec1; cbn [orb].
  { right; right. apply Nat.ltb_lt in El. auto. }
  destruct (contains (u "Rs") t) eqn:Ec2; [|left; reflexivity].
  right; right. apply Nat.ltb_lt in El. auto.
Qed.

(** X10.  [clean_price_text] returns ["N/A"], or the rupee sign followed by
    a numeral that occurs in the text (with its white space normalised), as
    it stands there, or that normalised text itself when it has fewer than
    20 characters and a rupee sign or [Rs] in it. *)
Theorem clean_price_text_results (price_text : pystr) :
  clean_price_text price_text = NA
  \/ (exists g,
         numeral_of (normalize_ws price_text) g
         /\ clean_price_text price_text = rupee :: g)
  \/ (clean_price_text price_text = normalize_ws price_text
      /\ (length (normalize_ws price_text) < 20)%nat
      /\ (contains [rupee] (normalize_ws price_text) = true
          \/ contains (u "Rs") (normalize_ws price_text) = true)).
Proof. apply clean_price_text_cases. Qed.

(** The selector loop of [extract_quantity] returns the text of a selected
    node, as it is, or the formatted group of the match of the quantity
    pattern in that text. *)
Lemma quantity_from_selectors_results (soup : Soup)
    (selectors : list pystr) (q : pystr) :
  quantity_from_selectors soup selectors = Some q ->
  exists selector element,
    In selector selectors
    /\ select_one soup selector = inr (Some element)
    /\ ((q = get_text_strip element
         /\ re_search true quantity_pattern q = None
         /\ re_search false (Plus Digit) q <> None)
        \/ exists m,
             re_search true quantity_pattern (get_text_strip element)
             = Some m
             /\ numeral_of (get_text_strip element) (group1 m)
             /\ q = format_quantity (group1 m)).
Proof.
  induction selectors as [|selector rest IH];
    cbn [quantity_from_selectors]; [discriminate|].
  assert (quantity_from_selectors soup rest = Some q ->
          exists selector0 element,
            In selector0 (selector :: rest)
            /\ select_one soup selector0 = inr (Some element)
            /\ ((q = get_text_strip element
                 /\ re_search true quantity_pattern q = None
                 /\ re_search false (Plus Digit) q <> None)
                \/ exists m,
                     re_search true quantity_pattern (get_text_strip element)
                     = Some m
                     /\ numeral_of (get_text_strip element) (group1 m)
                     /\ q = format_quantity (group1 m))) as Hrest.
  { intros H. destruct (IH H) as (s0 & el & Hin & Hs).
    exists s0, el. split; [right; assumption|assumption]. }
  destruct (select_one soup selector) as [e|[element|]] eqn:Es;
    try exact Hrest.
  destruct (_ && _); [|exact Hrest].
  destruct (re_search true quantity_pattern (get_text_strip element))
    as [m|] eqn:Em.
  - intros [= <-]. exists selector, element.
    split; [left; reflexivity|]. split; [exact Es|].
    right. exists m. split; [exact Em|]. split; [|reflexivity].
    destruct quantity_pattern_groups as [Hm HG].
    eapply search_group_of; eassumption.
  - destruct (re_search false (Plus Digit) (get_text_strip element)) eqn:Ed;
      [|exact Hrest].
    intros [= <-]. exists selector, element.
    split; [left; reflexivity|]. split; [exact Es|].
    left. split; [reflexivity|]. split; [exact Em|].
    rewrite Ed. discriminate.
Qed.

(** X8.  [extract_quantity] returns ["N/A"], or comes from the text of a
    node that one of the quantity locators selects: that text unchanged
    (when it has a digit but no quantity with a unit), or the numeral that
    the quantity pattern matches first in that text, its trailing [.0]
    removed, followed by [" tablets"]; or, when the locators give nothing,
    the numeral that the first matching document pattern finds in the text
    of the whole document, formatted in the same way. *)
Theorem extract_quantity_results (soup : Soup) :
  extract_quantity soup = NA
  \/ (exists selector element,
         In selector quantity_selectors
         /\ select_one soup selector = inr (Some element)
         /\ ((extract_quantity soup = get_text_strip element
              /\ re_search true quantity_pattern (get_text_strip element)
                 = None
              /\ re_search false (Plus Digit) (get_text_strip element)
                 <> None)
             \/ exists m,
                  re_search true quantity_pattern (get_text_strip element)
                  = Some m
                  /\ numeral_of (get_text_strip element) (group1 m)
                  /\ extract_quantity soup = format_quantity (group1 m)))
  \/ (quantity_from_selectors soup quantity_selectors = None
      /\ exists m,
           first_match quantity_patterns (get_text soup) = Some m
           /\ numeral_of (get_text soup) (group1 m)
           /\ extract_quantity soup = format_quantity (group1 m)).
Proof.
  unfold extract_quantity.
  destruct (quantity_from_selectors soup quantity_selectors) as [q|] eqn:E.
  - apply quantity_from_selectors_results in E
      as (s0 & el & Hin & Hs & [(-> & Hq & Hd)|(m & Hm & Hn & ->)]).
    + right; left. exists s0, el. split; [exact Hin|].
      split; [exact Hs|]. left. split; [reflexivity|].
      split; assumption.
    + right; left. exists s0, el. split; [exact Hin|].
      split; [exact Hs|]. right. exists m.
      split; [exact Hm|]. split; [exact Hn|reflexivity].
  - destruct (first_match quantity_patterns (get_text soup)) as [m|] eqn:Em;
      [|left; reflexivity].
    right; right. split; [reflexivity|]. exists m.
    split; [reflexivity|]. split; [|reflexivity].
    eapply first_match_group_of; [exact quantity_patterns_groups|exact Em].
Qed.



End ShapeProperties.

(** * The run *)

Section MoreRunProperties.

Context {U : UnicodeDB} {L : UrlLib} {W : Type} {P : Platform W}.

Lemma error_cause_not_success (e : exn) : error_cause e <> u "Success".
Proof.
  intros H. apply (f_equal (hd 0%N)) in H.
  destruct e; vm_compute in H; discriminate.
Qed.

(** X3.  [scrape_medicine] always returns a row for the URL it was given.  The
    status of the row is ["Success"] exactly when nothing was raised while
    the page was fetched and parsed, and the row is then the one assembled
    from the page; otherwise the row is the error record of the exception. *)
Theorem scrape_medicine_success_iff_no_exception (url : pystr) (delay : Z)
    (w : W) :
  exists r w',
    scrape_medicine url delay w = (inr r, w')
    /\ PageRecord.url r = url
    /\ ((PageRecord.status r = u "Success"
         /\ scrape_body url delay w = (inr r, w'))
        \/ (PageRecord.status r <> u "Success"
            /\ exists e,
                 scrape_body url delay w = (inl e, w')
                 /\ r = create_error_record url (error_cause e))).
Proof.
  rewrite scrape_medicine_unfold.
  destruct (scrape_body url delay w) as [[e|r] w'] eqn:E.
  - exists (create_error_record url (error_cause e)), w'.
    split; [reflexivity|]. split; [reflexivity|]. right.
    split; [apply error_cause_not_success|]. exists e. auto.
  - destruct (scrape_body_returns _ _ _ E) as [soup ->].
    exists (assemble soup url), w'.
    split; [reflexivity|]. split; [apply assemble_url|]. left.
    split; reflexivity.
Qed.

(** X4.  A response with an HTTP error status is not parsed: the row is the error
    record, with the [HTTPError] of [raise_for_status] reported as a network
    error. *)
Theorem scrape_medicine_http_error (url : pystr) (delay : Z) (w w1 w2 : W)
    (response : Response) (msg : pystr) :
  time_sleep delay w = (inr tt, w1) ->
  requests_get url w1 = (inr response, w2) ->
  http_error response = Some msg ->
  scrape_medicine url delay w
  = (inr (create_error_record url (u "Network error: " ++ msg)), w2).
Proof.
  intros Hs Hg He. rewrite scrape_medicine_unfold.
  unfold scrape_body, bind, raise_for_status, raise.
  rewrite Hs, Hg, He. reflexivity.
Qed.

(** The loop never raises, whatever happens to the snapshots, and its rows
    are counted: at least one per URL, and at most one more for every fifth
    URL. *)
Lemma batch_loop_row_count (delay : Z) (save_progress : bool)
    (urls : list pystr) :
  forall (i : N) (results : list PageRecord.t) (w : W),
    (1 <= i)%N ->
    exists rows w',
      batch_loop delay save_progress i urls results w = (inr rows, w')
      /\ (length results + length urls <= length rows)%nat
      /\ (5 * (Z.of_nat (length rows) - Z.of_nat (length results)
               - Z.of_nat (length urls))
          <= (Z.of_N i - 1) mod 5 + Z.of_nat (length urls))%Z.
Proof.
  induction urls as [|url rest IH]; intros i results w Hi;
    cbn [batch_loop].
  - exists results, w. split; [reflexivity|]. cbn [length].
    split; [lia|]. Z.div_mod_to_equations. lia.
  - unfold bind.
    destruct (batch_step_appends delay save_progress i url results w)
      as (r & extra & w1 & -> & _ & _ & Hextra).
    destruct (IH (i + 1)%N (results ++ r :: extra) w1 ltac:(lia))
      as (rows & w' & -> & Hlo & Hhi).
    exists rows, w'. split; [reflexivity|].
    rewrite length_app in Hlo, Hhi. cbn [length] in *.
    split; [lia|].
    destruct Hextra as [->|(e & _ & _ & -> & _ & Hmod & _)];
      cbn [length] in *.
    + replace (Z.of_N (i + 1) - 1)%Z with (Z.of_N i) in Hhi by lia.
      Z.div_mod_to_equations. lia.
    + apply (f_equal Z.of_N) in Hmod. rewrite N2Z.inj_mod in Hmod.
      replace (Z.of_N (i + 1) - 1)%Z with (Z.of_N i) in Hhi by lia.
      change (Z.of_N 5) with 5%Z in Hmod. change (Z.of_N 0) with 0%Z in Hmod.
      Z.div_mod_to_equations. lia.
Qed.

(** X2.  [scrape_medicines_batch] never raises, whatever the pages and the
    snapshots do.  For N URLs it returns at least N rows and at most
    N + N/5: the surplus comes from failed snapshot writes only, one row
    each, and a snapshot is written after every fifth URL. *)
Theorem scrape_medicines_batch_row_count (urls : list pystr) (delay : Z)
    (save_progress : bool) (w : W) :
  exists rows w',
    scrape_medicines_batch urls delay save_progress w = (inr rows, w')
    /\ (length urls <= length rows <= length urls + length urls / 5)%nat.
Proof.
  unfold scrape_medicines_batch. destruct urls as [|url rest].
  - exists [], w. split; [reflexivity|]. cbn. lia.
  - destruct (@batch_loop_row_count delay save_progress (url :: rest) 1%N []
                w ltac:(lia)) as (rows & w' & E & Hlo & Hhi).
    exists rows, w'. split; [exact E|].
    cbn [length] in Hlo, Hhi. change ((Z.of_N 1 - 1) mod 5)%Z with 0%Z in Hhi.
    split; [cbn [length]; lia|].
    assert (length rows - length (url :: rest)
            <= length (url :: rest) / 5)%nat as Hq.
    { apply Nat.div_le_lower_bound; [discriminate|]. cbn [length]. lia. }
    lia.
Qed.

End MoreRunProperties.

(** * The extractors *)

Section MoreFieldProperties.

Context {U : UnicodeDB} {L : UrlLib}.

Lemma extract_field_skip (soup : Soup) (selector : pystr)
    (rest : list pystr) :
  no_text soup selector ->
  extract_field soup (selector :: rest) = extract_field soup rest.
Proof.
  unfold no_text. cbn [extract_field].
  destruct (select_one soup selector) as [e|[element|]]; try reflexivity.
  intros ->. reflexivity.
Qed.

(** X5.  When no locator selects a node that has text, [extract_field] returns
    ["N/A"]; a locator on which [select_one] raises counts as one that
    selects nothing. *)
Theorem extract_field_without_text (soup : Soup) (selectors : list pystr) :
  Forall (no_text soup) selectors ->
  extract_field soup selectors = NA.
Proof.
  induction 1 as [|selector rest Hs _ IH]; [reflexivity|].
  rewrite extract_field_skip by exact Hs. exact IH.
Qed.

(** X6.  [extract_field] passes over the locators that select nothing with text
    and returns at the first one that does: the text itself, or, for a price
    locator, what [clean_price_text] makes of it. *)
Theorem extract_field_first_text (soup : Soup) (pre post : list pystr)
    (selector : pystr) (element : Tag) :
  Forall (no_text soup) pre ->
  select_one soup selector = inr (Some element) ->
  get_text_strip element <> [] ->
  extract_field soup (pre ++ selector :: post)
  = if is_price_selector selector
    then clean_price_text (get_text_strip element)
    else get_text_strip element.
Proof.
  intros Hpre Hsel Htext.
  induction Hpre as [|s0 pre Hs _ IH].
  - cbn [app extract_field]. rewrite Hsel.
    destruct (get_text_strip element) as [|c t] eqn:Et; [congruence|].
    cbn [truthy str_eqb negb andb].
    destruct (is_price_selector selector); [|reflexivity].
    destruct (_ && _); reflexivity.
  - rewrite <- app_comm_cons, extract_field_skip by exact Hs. exact IH.
Qed.

(** X7.  When the first quantity locator whose node has text selects a text with
    a digit in it but no quantity with a unit, [extract_quantity] returns
    that text as it is. *)
Theorem extract_quantity_raw_text (soup : Soup) (pre post : list pystr)
    (selector : pystr) (element : Tag) (m : MatchObj) :
  quantity_selectors = pre ++ selector :: post ->
  quantity_from_selectors soup pre = None ->
  select_one soup selector = inr (Some element) ->
  re_search true quantity_pattern (get_text_strip element) = None ->
  re_search false (Plus Digit) (get_text_strip element) = Some m ->
  extract_quantity soup = get_text_strip element.
Proof.
  intros Hlist Hpre Hsel Hq Hd. unfold extract_quantity.
  rewrite Hlist, (quantity_from_selectors_app _ _ _ Hpre).
  cbn [quantity_from_selectors]. rewrite Hsel.
  destruct (get_text_strip element) as [|c t] eqn:Et.
  - vm_compute in Hd. discriminate.
  - cbn [truthy str_eqb negb andb]. rewrite Hq, Hd. reflexivity.
Qed.

(** *** Prices of a row *)

Lemma price_cascade_NA_or_rupee (t : pystr) :
  NA_or_rupee (fst (price_cascade t)) /\ NA_or_rupee (snd (price_cascade t)).
Proof.
  unfold price_cascade, fill_from_amounts, labeled_mrp, labeled_discounted.
  assert (forall (o : option MatchObj) (f : MatchObj -> pystr),
             NA_or_rupee match o with
                         | Some m => rupee :: f m
                         | None => NA
                         end) as Hl.
  { intros [m|] f; [right; eexists; reflexivity|left; reflexivity]. }
  assert (forall (v x : pystr),
             NA_or_rupee v ->
             NA_or_rupee (if str_eqb v NA then rupee :: x else v)) as Hf.
  { intros v x Hv. destruct (str_eqb v NA); [right; eexists; reflexivity|].
    exact Hv. }
  destruct (_ && _); [destruct (2 <=? _)%nat|]; cbn [fst snd];
    split; try apply Hf; apply Hl.
Qed.

(** The two prices of [parse_price_info] are both ["N/A"], or both start
    with the rupee sign. *)
Lemma parse_price_info_both_or_neither (text : pystr) :
  (mrp (parse_price_info text) = NA
   /\ discounted_price (parse_price_info text) = NA)
  \/ exists a b,
       mrp (parse_price_info text) = rupee :: a
       /\ discounted_price (parse_price_info text) = rupee :: b.
Proof.
  unfold parse_price_info.
  destruct (price_cascade_NA_or_rupee (normalize_ws text)) as [Hm Hd].
  destruct (price_cascade (normalize_ws text)) as [m d].
  cbn [fst snd] in Hm, Hd. unfold mirror.
  destruct Hm as [->|[a ->]], Hd as [->|[b ->]];
    rewrite ?str_eqb_refl, ?rupee_not_NA; cbn [andb negb mrp discounted_price].
  - left. split; reflexivity.
  - right. exists b, b. split; reflexivity.
  - right. exists a, a. split; reflexivity.
  - right. exists a, b. split; reflexivity.
Qed.

Lemma price_from_selectors_both (with_currency : bool) (soup : Soup)
    (selectors : list pystr) (price_info : PriceInfo) :
  price_from_selectors with_currency soup selectors = Some price_info ->
  exists a b,
    mrp price_info = rupee :: a /\ discounted_price price_info = rupee :: b.
Proof.
  induction selectors as [|selector rest IH]; cbn [price_from_selectors];
    [discriminate|].
  destruct (select_one soup selector) as [e|[element|]]; try exact IH.
  destruct (_ && _); [|exact IH].
  destruct (found_a_price _) eqn:Ef; [|exact IH].
  intros [= <-].
  destruct (parse_price_info_both_or_neither (get_text_strip element))
    as [[Hm Hd]|H]; [|exact H].
  unfold found_a_price in Ef. rewrite Hm, Hd in Ef. discriminate.
Qed.

(** X11.  In the record of a successful extraction the three price columns agree:
    [mrp], [discounted_price] and [price] are all ["N/A"], or [mrp] and
    [discounted_price] both start with the rupee sign and [price] is the
    discounted price. *)
Theorem assemble_prices_agree (soup : Soup) (url : pystr) :
  (PageRecord.mrp (assemble soup url) = NA
   /\ PageRecord.discounted_price (assemble soup url) = NA
   /\ PageRecord.price (assemble soup url) = NA)
  \/ exists a b,
       PageRecord.mrp (assemble soup url) = rupee :: a
       /\ PageRecord.discounted_price (assemble soup url) = rupee :: b
       /\ PageRecord.price (assemble soup url) = rupee :: b.
Proof.
  assert ((mrp (extract_price_info soup) = NA
           /\ discounted_price (extract_price_info soup) = NA)
          \/ exists a b,
               mrp (extract_price_info soup) = rupee :: a
               /\ discounted_price (extract_price_info soup) = rupee :: b)
    as H.
  { unfold extract_price_info.
    destruct (price_from_selectors true soup price_containers) eqn:E1;
      [right; eapply price_from_selectors_both; exact E1|].
    destruct (price_from_selectors false soup individual_selectors) eqn:E2;
      [right; eapply price_from_selectors_both; exact E2|].
    left. split; reflexivity. }
  unfold assemble.
  destruct H as [[Hm Hd]|(a & b & Hm & Hd)].
  - left. cbn [success_record PageRecord.mrp PageRecord.discounted_price
                 PageRecord.price]. auto.
  - right. exists a, b.
    cbn [success_record PageRecord.mrp PageRecord.discounted_price
           PageRecord.price]. auto.
Qed.

(** *** Image *)


End MoreFieldProperties.

(** * White space *)

Section NormalizeProperties.

Context {U : UnicodeDB}.

Lemma split_ws_aux_words (s : pystr) :
  forall cur,
    Forall (fun c => isspace c = false) cur ->
    Forall word (split_ws_aux cur s).
Proof.
  induction s as [|c s IH]; intros cur Hcur; cbn [split_ws_aux].
  - destruct cur as [|x cur]; [constructor|].
    constructor; [|constructor]. split.
    + cbn [rev]. destruct (rev cur); discriminate.
    + apply Forall_rev. exact Hcur.
  - destruct (isspace c) eqn:Ec.
    + destruct cur as [|x cur]; [apply IH; constructor|].
      constructor; [|apply IH; constructor]. split.
      * cbn [rev]. destruct (rev cur); discriminate.
      * apply Forall_rev. exact Hcur.
    + apply IH. constructor; assumption.
Qed.

Lemma split_ws_aux_word (w : pystr) :
  Forall (fun c => isspace c = false) w ->
  forall cur s, split_ws_aux cur (w ++ s) = split_ws_aux (rev w ++ cur) s.
Proof.
  induction 1 as [|c w Hc _ IH]; intros cur s; [reflexivity|].
  cbn [app split_ws_aux rev]. rewrite Hc, IH, <- app_assoc. reflexivity.
Qed.

Hypothesis space : isspace (ch " ") = true.

(** Splitting what was joined with single spaces gives the words back. *)
Lemma split_ws_join (ws : list pystr) :
  Forall word ws -> split_ws (join (u " ") ws) = ws.
Proof.
  unfold split_ws.
  induction 1 as [|x l [Hne Hx] Hl IH]; [reflexivity|].
  assert (rev x <> []) as Hrev.
  { intros H. apply (f_equal (@rev char)) in H.
    rewrite rev_involutive in H. exact (Hne H). }
  destruct l as [|y l'].
  - cbn [join]. rewrite <- (app_nil_r x) at 1.
    rewrite (split_ws_aux_word Hx), app_nil_r. cbn [split_ws_aux].
    destruct (rev x) eqn:Er; [congruence|].
    rewrite <- Er, rev_involutive. reflexivity.
  - change (join (u " ") (x :: y :: l'))
      with (x ++ ch " " :: join (u " ") (y :: l')).
    rewrite (split_ws_aux_word Hx), app_nil_r. cbn [split_ws_aux].
    rewrite space. destruct (rev x) eqn:Er; [congruence|].
    rewrite <- Er, rev_involutive, IH. reflexivity.
Qed.

Lemma normalize_ws_idempotent (s : pystr) :
  normalize_ws (normalize_ws s) = normalize_ws s.
Proof.
  unfold normalize_ws. rewrite split_ws_join; [reflexivity|].
  apply split_ws_aux_words. constructor.
Qed.

(** X14.  The price parsers see a text up to its white space: they give the same
    result on a text and on the text with its white space normalised (runs
    of white space made one space, none at the ends). *)
Theorem price_parsers_ignore_white_space (price_text : pystr) :
  parse_price_info (normalize_ws price_text) = parse_price_info price_text
  /\ clean_price_text (normalize_ws price_text)
     = clean_price_text price_text.
Proof.
  unfold parse_price_info, clean_price_text.
  rewrite normalize_ws_idempotent. split; reflexivity.
Qed.

End NormalizeProperties.

(** * Saving *)

Section SaveProperties.

Lemma replace_from_absent (old new s : pystr) :
  contains old s = false -> replace_from old new 0 s = s.
Proof.
  induction s as [|c s IH]; [reflexivity|].
  cbn [contains replace_from]. intros H.
  apply orb_false_iff in H as [Hs Hc].
  rewrite Hs, (IH Hc). reflexivity.
Qed.



Context {W : Type} {P : Platform W} {X : ExcelWriter W}.

(** X17.  For a file name without [.csv] there is nothing to replace: the
    Excel file and the JSON file get the name of the CSV file itself, so that
    every write [save_results] attempts (the CSV, then the Excel file, then,
    unless that raised, the JSON file) is to that one path. *)
Theorem save_results_file_names_without_csv (filename : pystr) :
  contains (u ".csv") filename = false ->
  excel_file filename = filename
  /\ json_file filename = filename
  /\ forall (df : list PageRecord.t) (w : W),
       save_results df filename w
       = match to_csv filename df w with
         | (inl _, w1) => (inr None, w1)
         | (inr _, w1) =>
             match to_excel filename df w1 with
             | (ExcelRaises _, w2) => (inr None, w2)
             | (_, w2) =>
                 let '(_, w3) := json_dump filename df w2 in
                 (inr (Some filename), w3)
             end
         end.
Proof.
  intros H.
  assert (excel_file filename = filename) as He
    by (unfold excel_file, str_replace; apply replace_from_absent, H).
  assert (json_file filename = filename) as Hj
    by (unfold json_file, str_replace; apply replace_from_absent, H).
  split; [exact He|]. split; [exact Hj|].
  intros df w. unfold save_results. rewrite He, Hj. reflexivity.
Qed.

(** X15.  [save_results] never raises.  It returns the file name exactly when the
    CSV was written and writing the Excel file raised nothing but
    [ImportError]; otherwise it returns [None].  Whether the JSON file could
    be written does not show in the result. *)
Theorem save_results_result (df : list PageRecord.t) (filename : pystr)
    (w : W) :
  exists result w',
    save_results df filename w = (inr result, w')
    /\ (result = Some filename \/ result = None)
    /\ (result = Some filename
        <-> exists u0 w1,
              to_csv filename df w = (inr u0, w1)
              /\ forall e,
                   fst (to_excel (excel_file filename) df w1)
                   <> ExcelRaises e).
Proof.
  unfold save_results.
  destruct (to_csv filename df w) as [[e|u0] w1] eqn:Ecsv.
  - exists None, w1. split; [reflexivity|]. split; [right; reflexivity|].
    split; [discriminate|]. intros (u1 & w2 & H & _). discriminate.
  - destruct (to_excel (excel_file filename) df w1) as [[| |e] w2] eqn:Ex.
    + destruct (json_dump (json_file filename) df w2) as [j w3].
      exists (Some filename), w3. split; [reflexivity|].
      split; [left; reflexivity|]. split; [|reflexivity].
      intros _. exists u0, w1. split; [reflexivity|].
      intros e. rewrite Ex. discriminate.
    + destruct (json_dump (json_file filename) df w2) as [j w3].
      exists (Some filename), w3. split; [reflexivity|].
      split; [left; reflexivity|]. split; [|reflexivity].
      intros _. exists u0, w1. split; [reflexivity|].
      intros e. rewrite Ex. discriminate.
    + exists None, w2. split; [reflexivity|]. split; [right; reflexivity|].
      split; [discriminate|]. intros (u1 & w3 & [= <- <-] & H).
      exfalso. apply (H e). rewrite Ex. reflexivity.
Qed.

End SaveProperties.

(** * Instances of the general theorems

    The Basic Latin table has the two properties of the tables that some
    theorems ask for. *)

Lemma basic_latin_point : point_has_no_case.
Proof.
  intros c H. change ((ch "." =? c)%N = true) in H.
  apply N.eqb_eq in H. symmetry. exact H.
Qed.

Lemma basic_latin_space : isspace (ch " ") = true.
Proof. reflexivity. Qed.


Lemma scrape_medicine_http_error_witness :
  scrape_medicine (P := not_found_platform) url_a 2 tt
  = (inr (create_error_record url_a
            (u "Network error: "
             ++ (u "404 Client Error: Not Found for url: " ++ url_a))),
     tt).
Proof.
  apply (scrape_medicine_http_error (P := not_found_platform) url_a 2 tt
           (w1 := tt)
           (response :=
              {| text := u "Not Found";
                 http_error :=
                   Some (u "404 Client Error: Not Found for url: "
                         ++ url_a) |}));
    reflexivity.
Defined.

Lemma parse_price_info_labeled_mrp_cleaned_witness :
  mrp (parse_price_info (u "MRP ₹34.274 ₹30")) = u "₹34.27".
Proof.
  refine (eq_trans
            (parse_price_info_labeled_mrp_cleaned (u "MRP ₹34.274 ₹30")
               (m := _) _) _);
    vm_compute; reflexivity.
Defined.

Lemma parse_price_info_discounted_verbatim_witness :
  discounted_price (parse_price_info (u "MRP ₹60 Offer Price: ₹50.123"))
  = u "₹50.123".
Proof.
  refine (eq_trans
            (parse_price_info_discounted_verbatim
               (u "MRP ₹60 Offer Price: ₹50.123") (m := _) _) _);
    vm_compute; reflexivity.
Defined.

Lemma parse_price_info_fields_witness :
  price_of (normalize_ws (u "MRP ₹34.274 (5% off)"))
    (mrp (parse_price_info (u "MRP ₹34.274 (5% off)")))
  /\ price_of (normalize_ws (u "MRP ₹34.274 (5% off)"))
       (discounted_price (parse_price_info (u "MRP ₹34.274 (5% off)"))).
Proof.
  exact (parse_price_info_fields basic_latin_point
           (u "MRP ₹34.274 (5% off)")).
Defined.

Lemma clean_price_text_results_witness :
  clean_price_text (u "₹ on request") = NA
  \/ (exists g,
         numeral_of (normalize_ws (u "₹ on request")) g
         /\ clean_price_text (u "₹ on request") = rupee :: g)
  \/ (clean_price_text (u "₹ on request") = normalize_ws (u "₹ on request")
      /\ (length (normalize_ws (u "₹ on request")) < 20)%nat
      /\ (contains [rupee] (normalize_ws (u "₹ on request")) = true
          \/ contains (u "Rs") (normalize_ws (u "₹ on request")) = true)).
Proof.
  exact (clean_price_text_results basic_latin_point (u "₹ on request")).
Defined.

Lemma extract_quantity_results_witness :
  let soup := page [(u ".quantity", text_tag "strip of 10.0 tablets")] "" in
  extract_quantity soup = NA
  \/ (exists selector element,
         In selector quantity_selectors
         /\ select_one soup selector = inr (Some element)
         /\ ((extract_quantity soup = get_text_strip element
              /\ re_search true quantity_pattern (get_text_strip element)
                 = None
              /\ re_search false (Plus Digit) (get_text_strip element)
                 <> None)
             \/ exists m,
                  re_search true quantity_pattern (get_text_strip element)
                  = Some m
                  /\ numeral_of (get_text_strip element) (group1 m)
                  /\ extract_quantity soup = format_quantity (group1 m)))
  \/ (quantity_from_selectors soup quantity_selectors = None
      /\ exists m,
           first_match quantity_patterns (get_text soup) = Some m
           /\ numeral_of (get_text soup) (group1 m)
           /\ extract_quantity soup = format_quantity (group1 m)).
Proof.
  exact (extract_quantity_results basic_latin_point
           (page [(u ".quantity", text_tag "strip of 10.0 tablets")] "")).
Defined.


Lemma extract_field_without_text_witness :
  extract_field
    (page_rejecting (u "h1[") [(u ".empty", text_tag "")])
    [u "h1["; u ".empty"; u ".missing"]
  = NA.
Proof.
  apply extract_field_without_text.
  repeat (apply Forall_cons; [vm_compute; trivial|]).
  apply Forall_nil.
Defined.

Lemma extract_field_first_text_witness :
  extract_field
    (page_rejecting (u "h1[") [(u ".name", text_tag "Dolo 650 Tablet")])
    [u "h1["; u ".missing"; u ".name"; u "h1"]
  = u "Dolo 650 Tablet".
Proof.
  refine (@extract_field_first_text basic_latin
            (page_rejecting (u "h1[")
               [(u ".name", text_tag "Dolo 650 Tablet")])
            [u "h1["; u ".missing"] [u "h1"] (u ".name")
            (text_tag "Dolo 650 Tablet") _ _ _).
  - repeat (apply Forall_cons; [vm_compute; trivial|]).
    apply Forall_nil.
  - reflexivity.
  - vm_compute. discriminate.
Defined.

Lemma extract_quantity_raw_text_witness :
  extract_quantity (page [(u ".pack-size", text_tag "Pack of 10")] "")
  = u "Pack of 10".
Proof.
  refine (@extract_quantity_raw_text basic_latin
            (page [(u ".pack-size", text_tag "Pack of 10")] "")
            (firstn 4 quantity_selectors) (skipn 5 quantity_selectors)
            (u ".pack-size") (text_tag "Pack of 10") _ _ _ _ _ _);
    vm_compute; reflexivity.
Defined.


Lemma price_parsers_ignore_white_space_witness :
  parse_price_info (normalize_ws (u "  MRP   ₹55   ₹50.1 (9% off) "))
  = parse_price_info (u "  MRP   ₹55   ₹50.1 (9% off) ")
  /\ clean_price_text (normalize_ws (u "  MRP   ₹55   ₹50.1 (9% off) "))
     = clean_price_text (u "  MRP   ₹55   ₹50.1 (9% off) ").
Proof.
  exact (price_parsers_ignore_white_space basic_latin_space
           (u "  MRP   ₹55   ₹50.1 (9% off) ")).
Defined.


Lemma save_results_file_names_without_csv_witness :
  excel_file (u "results.txt") = u "results.txt"
  /\ json_file (u "results.txt") = u "results.txt"
  /\ forall (df : list PageRecord.t) (w : World),
       save_results df (u "results.txt") w
       = match to_csv (u "results.txt") df w with
         | (inl _, w1) => (inr None, w1)
         | (inr _, w1) =>
             match to_excel (u "results.txt") df w1 with
             | (ExcelRaises _, w2) => (inr None, w2)
             | (_, w2) =>
                 let '(_, w3) := json_dump (u "results.txt") df w2 in
                 (inr (Some (u "results.txt")), w3)
             end
         end.
Proof.
  apply (save_results_file_names_without_csv (W := World)).
  reflexivity.
Defined.

(** [save_results] on the machine of the examples, which has no
    [openpyxl]: the name comes back when the directory can be written, and
    [None] when it cannot. *)
Example save_results_examples :
  fst (save_results [] (u "medicines_final.csv")
         {| unreachable := []; read_only := false |})
  = inr (Some (u "medicines_final.csv"))
  /\ fst (save_results [] (u "medicines_final.csv")
            {| unreachable := []; read_only := true |})
     = inr None.
Proof. vm_compute. split; reflexivity. Qed.
